(** * Task lifecycle and organization membership of the project-management backend

    A shallow embedding of the request handlers of
    [src/controllers/task.controller.js],
    [src/controllers/organization.controller.js] and of [signUp],
    [signUpCandidate], [createSession] and [getSession] of the session
    controller, together with the properties of the specification that
    concern them and further properties of the handlers.

    The handlers are [async] functions that talk to a relational datastore
    through an ORM, read the clock and send one JSON response.  They are
    embedded as computations in a state-and-exception monad [M] over a
    [World] that holds the datastore and the answers of the environment
    (whether a datastore call throws, what [new Date()] reads, what
    [uuidv4()] draws). *)

From stdpp Require Import gmap strings list fin_maps sorting.
From Stdlib Require Import ZArith.

Local Open Scope Z_scope.

(** ** Rows of the datastore *)

(** Modelled from the spec: the ORM models ([../models/*.model.js]) are not
    part of the sources at hand.  The columns are the ones the controllers
    read and write, with the types of section 3 of the specification: ids
    are integers, [status] is a string (the controllers never validate it),
    [started_date] is the only nullable column among those the lifecycle
    rules consult, and a new task starts with [status = "todo"],
    [started_date = null] and [exception = false].  Dates are milliseconds
    since the epoch.  Columns that only carry user data are nullable.  The
    primary id of a row is the key it is stored under (see [DB]), so an
    instance of a model is a pair of the id and the other columns. *)
Module Task.
Record t := mk {
  name : option string;
  description : option string;
  priority : option string;
  dueDate : option Z;
  difficulty : option string;
  projectId : Z;
  assigneeId : Z;
  createdBy : option Z;
  exception : bool;
  status : string;
  started_date : option Z;
}.
End Task.

Module CompletedTask.
Record t := mk {
  task_id : Z;
  user_id : Z;
  project_id : Z;
  started_date : option Z;
  completed_date : Z;
  hours : Z;
}.
End CompletedTask.

Module Project.
Record t := mk { organizationId : Z; name : option string }.
End Project.

Module User.
Record t := mk { name : option string; email : string }.
End User.

Module Organization.
Record t := mk { name : option string; description : option string }.
End Organization.

(** A membership row, as a handler holds it after [findOne]: the
    organization or project, the user and the role, a string that nothing
    validates. *)
Module Member.
Record t := mk { scopeId : Z; userId : Z; role : string }.
End Member.

Module Invite.
Record t := mk {
  organizationId : Z;
  email : string;
  userId : Z;
  secret : string;
}.
End Invite.

Module Session.
Record t := mk { userId : Z; valid : bool }.
End Session.

(** Modelled from the spec: the tables of the datastore, which the missing
    models declare.  Tables with a primary id are maps from the id; the two
    membership tables are keyed by the pair (organization or project, user),
    which the specification (section 6) declares unique, and hold the role.
    [nextId] is the sequence the datastore draws fresh primary ids from. *)
Record DB := mkDB {
  tasks : gmap Z Task.t;
  completedTasks : gmap Z CompletedTask.t;
  projects : gmap Z Project.t;
  projectMembers : gmap (Z * Z) string;
  users : gmap Z User.t;
  organizations : gmap Z Organization.t;
  organizationMembers : gmap (Z * Z) string;
  invites : gmap Z Invite.t;
  sessions : gmap Z Session.t;
  nextId : Z;
}.

Definition set_tasks (f : gmap Z Task.t → gmap Z Task.t) (d : DB) : DB :=
  mkDB (f (tasks d)) (completedTasks d) (projects d) (projectMembers d)
       (users d) (organizations d) (organizationMembers d) (invites d)
       (sessions d) (nextId d).

Definition set_completedTasks
    (f : gmap Z CompletedTask.t → gmap Z CompletedTask.t) (d : DB) : DB :=
  mkDB (tasks d) (f (completedTasks d)) (projects d) (projectMembers d)
       (users d) (organizations d) (organizationMembers d) (invites d)
       (sessions d) (nextId d).

Definition set_organizations
    (f : gmap Z Organization.t → gmap Z Organization.t) (d : DB) : DB :=
  mkDB (tasks d) (completedTasks d) (projects d) (projectMembers d)
       (users d) (f (organizations d)) (organizationMembers d) (invites d)
       (sessions d) (nextId d).

Definition set_organizationMembers
    (f : gmap (Z * Z) string → gmap (Z * Z) string) (d : DB) : DB :=
  mkDB (tasks d) (completedTasks d) (projects d) (projectMembers d)
       (users d) (organizations d) (f (organizationMembers d)) (invites d)
       (sessions d) (nextId d).

Definition set_invites (f : gmap Z Invite.t → gmap Z Invite.t) (d : DB) : DB :=
  mkDB (tasks d) (completedTasks d) (projects d) (projectMembers d)
       (users d) (organizations d) (organizationMembers d) (f (invites d))
       (sessions d) (nextId d).

Definition bump_nextId (d : DB) : DB :=
  mkDB (tasks d) (completedTasks d) (projects d) (projectMembers d)
       (users d) (organizations d) (organizationMembers d) (invites d)
       (sessions d) (nextId d + 1).

(** ** The world and the monad of the handlers *)

(** [fault n] tells whether the [n]-th datastore call of the run throws, and
    with which message; [date n] is what the [n]-th [new Date()] reads;
    [uuid n] is the [n]-th result of [uuidv4()].  The three counters say how
    many of each have been consumed.  [outbox] collects the mails handed to
    the mail service (recipient and text), the latest first. *)
Record World := mkWorld {
  db : DB;
  outbox : list (string * string);
  fault : nat → option string;
  calls : nat;
  date : nat → Z;
  reads : nat;
  uuid : nat → string;
  draws : nat;
}.

Inductive Outcome (A : Type) : Type :=
  | Done (a : A)
  | Thrown (msg : string).
Arguments Done {A} a.
Arguments Thrown {A} msg.

Definition M (A : Type) : Type := World → Outcome A * World.

Definition ret {A} (a : A) : M A := λ w, (Done a, w).

Definition bind {A B} (m : M A) (k : A → M B) : M B := λ w,
  match m w with
  | (Done a, w') => k a w'
  | (Thrown e, w') => (Thrown e, w')
  end.

Definition throw {A} (msg : string) : M A := λ w, (Thrown msg, w).

(** [try { body } catch (error) { handler error.message }] *)
Definition try_catch {A} (body : M A) (handler : string → M A) : M A := λ w,
  match body w with
  | (Done a, w') => (Done a, w')
  | (Thrown e, w') => handler e w'
  end.

#[global] Instance M_ret : MRet M := @ret.
#[global] Instance M_bind : MBind M := λ A B k m, bind m k.

Definition tick_call (w : World) : World :=
  mkWorld (db w) (outbox w) (fault w) (S (calls w)) (date w) (reads w)
          (uuid w) (draws w).

Definition with_db (d : DB) (w : World) : World :=
  mkWorld d (outbox w) (fault w) (calls w) (date w) (reads w) (uuid w)
          (draws w).

(** An awaited query: it throws when the environment says so, and otherwise
    answers from the datastore, which it leaves as it is. *)
Definition query {A} (f : DB → A) : M A := λ w,
  match fault w (calls w) with
  | Some e => (Thrown e, tick_call w)
  | None => (Done (f (db w)), tick_call w)
  end.

(** An awaited statement that writes: it throws, changing nothing, when the
    environment says so or when the datastore refuses it ([f] gives [inl]
    with the message); otherwise the datastore becomes what [f] gives. *)
Definition statement {A} (f : DB → string + (A * DB)) : M A := λ w,
  match fault w (calls w) with
  | Some e => (Thrown e, tick_call w)
  | None =>
      match f (db w) with
      | inl e => (Thrown e, tick_call w)
      | inr (a, d) => (Done a, with_db d (tick_call w))
      end
  end.

(** [new Date()], as a number of milliseconds. *)
Definition new_Date : M Z := λ w,
  (Done (date w (reads w)),
   mkWorld (db w) (outbox w) (fault w) (calls w) (date w) (S (reads w))
           (uuid w) (draws w)).

(** [sgMail.send(msg)], not awaited: a failed delivery is only logged. *)
Definition sgMail_send (to text : string) : M unit := λ w,
  (Done tt,
   mkWorld (db w) ((to, text) :: outbox w) (fault w) (calls w) (date w)
           (reads w) (uuid w) (draws w)).

Definition uuidv4 : M string := λ w,
  (Done (uuid w (draws w)),
   mkWorld (db w) (outbox w) (fault w) (calls w) (date w) (reads w) (uuid w)
           (S (draws w))).

(** ** Responses *)

Inductive Payload : Type :=
  | PTask (t : Z * Task.t)
  | PTasks (l : list (Z * Task.t))
  | PCompletedTask (c : Z * CompletedTask.t)
  | PCompletedTasks (l : list (Z * CompletedTask.t))
  | POrganization (o : Z * Organization.t)
  | PMember (m : Member.t)
  | PMemberships (l : list (Member.t * option Organization.t))
  | PMembers (l : list (Member.t * option User.t))
  | PInvite (i : Z * Invite.t).

(** The object given to [res.json], with the status set by [res.status]
    (200 when it is not called).  A key the object literal does not have is
    [None]. *)
Module Response.
Record t := mk {
  status : Z;
  success : option bool;
  message : option string;
  data : option Payload;
}.
End Response.

(** What a handler has sent when it is done: [None] when it returned without
    calling [res.json] or [res.send]. *)
Definition Sent : Type := option Response.t.

(** [res.status(c).json({ success: false, message: m })] *)
Definition fail (c : Z) (m : string) : M Sent :=
  ret (Some (Response.mk c (Some false) (Some m) None)).

(** [res.json({ success: true, message: m })] *)
Definition ok (m : string) : M Sent :=
  ret (Some (Response.mk 200 (Some true) (Some m) None)).

(** [res.json({ success: true, message: m, data: p })] *)
Definition ok_data (m : string) (p : Payload) : M Sent :=
  ret (Some (Response.mk 200 (Some true) (Some m) (Some p))).

(** The [catch] block shared by the handlers. *)
Definition internal_error (msg : string) : M Sent := fail 500 msg.

(** Running a handler: the response sent and the world afterwards.  A
    rejection nobody catches sends nothing. *)
Definition run (h : M Sent) (w : World) : Sent * World :=
  match h w with
  | (Done r, w') => (r, w')
  | (Thrown _, w') => (None, w')
  end.

(** ** The ORM calls the controllers make *)

(** The keys of an object literal handed to [task.update].  A key whose value
    is [undefined] is left out by the ORM, so [None] stands both for a key
    that is not written and for one that is [undefined]; [started_date] is
    nullable, so its value is itself an option ([Some None] is [null]). *)
Record TaskPatch := mkPatch {
  p_name : option string;
  p_description : option string;
  p_priority : option string;
  p_dueDate : option Z;
  p_difficulty : option string;
  p_assigneeId : option Z;
  p_projectId : option Z;
  p_exception : option bool;
  p_status : option string;
  p_started_date : option (option Z);
}.

(** A nullable column keeps its value unless the patch has one. *)
Definition patched {A} (new : option A) (old : option A) : option A :=
  match new with Some a => Some a | None => old end.

Definition Task_set (p : TaskPatch) (t : Task.t) : Task.t :=
  Task.mk
    (patched (p_name p) (Task.name t))
    (patched (p_description p) (Task.description t))
    (patched (p_priority p) (Task.priority t))
    (patched (p_dueDate p) (Task.dueDate t))
    (patched (p_difficulty p) (Task.difficulty t))
    (default (Task.projectId t) (p_projectId p))
    (default (Task.assigneeId t) (p_assigneeId p))
    (Task.createdBy t)
    (default (Task.exception t) (p_exception p))
    (default (Task.status t) (p_status p))
    (default (Task.started_date t) (p_started_date p)).

Definition Task_findByPk (k : Z) : M (option (Z * Task.t)) :=
  query (λ d, pair k <$> tasks d !! k).

(** [Task.create]: the row gets the next id of the sequence and the column
    defaults; a primary key already taken is refused. *)
Definition Task_create (name description priority : option string)
    (dueDate : option Z) (difficulty : option string)
    (projectId assigneeId : Z) (createdBy : option Z) : M (Z * Task.t) :=
  statement (λ d,
    let t := Task.mk name description priority dueDate difficulty
                     projectId assigneeId createdBy false "todo" None in
    match tasks d !! nextId d with
    | Some _ => inl "Validation error"
    | None => inr ((nextId d, t), set_tasks <[nextId d := t]> (bump_nextId d))
    end).

(** [task.update(values)]: an UPDATE of the row with the id of the instance;
    the instance the handler holds afterwards carries the new values. *)
Definition Task_update (task : Z * Task.t) (p : TaskPatch) : M (Z * Task.t) :=
  statement (λ d,
    inr ((task.1, Task_set p task.2),
         set_tasks (alter (Task_set p) task.1) d)).

Definition Task_destroy (task : Z * Task.t) : M unit :=
  statement (λ d, inr (tt, set_tasks (delete task.1) d)).

Definition Task_findAll (where_ : Task.t → bool) : M (list (Z * Task.t)) :=
  query (λ d, filter (λ t, where_ t.2 = true) (map_to_list (tasks d))).

Definition CompletedTask_create (task_id user_id project_id : Z)
    (started_date : option Z) (completed_date hours : Z)
    : M (Z * CompletedTask.t) :=
  statement (λ d,
    let c := CompletedTask.mk task_id user_id project_id
                              started_date completed_date hours in
    match completedTasks d !! nextId d with
    | Some _ => inl "Validation error"
    | None =>
        inr ((nextId d, c),
             set_completedTasks <[nextId d := c]> (bump_nextId d))
    end).

Definition CompletedTask_findAll (where_ : CompletedTask.t → bool)
    : M (list (Z * CompletedTask.t)) :=
  query (λ d,
    filter (λ c, where_ c.2 = true) (map_to_list (completedTasks d))).

Definition Project_findByPk (k : Z) : M (option (Z * Project.t)) :=
  query (λ d, pair k <$> projects d !! k).

Definition User_findByPk (k : Z) : M (option (Z * User.t)) :=
  query (λ d, pair k <$> users d !! k).

Definition Organization_findByPk (k : Z) : M (option (Z * Organization.t)) :=
  query (λ d, pair k <$> organizations d !! k).

(** [ProjectMembers.findOne({ where: { userId, projectId } })] *)
Definition ProjectMembers_findOne (userId projectId : Z)
    : M (option Member.t) :=
  query (λ d,
    Member.mk projectId userId <$> projectMembers d !! (projectId, userId)).

(** [OrganizationMembers.findOne({ where: { userId, organizationId } })] *)
Definition OrganizationMembers_findOne (userId organizationId : Z)
    : M (option Member.t) :=
  query (λ d,
    Member.mk organizationId userId
      <$> organizationMembers d !! (organizationId, userId)).

(** ** JavaScript comparisons the handlers make *)

(** [stored != field] for a stored column that is never null and a field of
    the request body that is absent ([undefined]) or has a value of the
    type of the column: [x != undefined] is true for every such [x]. *)
Definition loose_neq `{EqDecision A} (stored : A) (field : option A) : bool :=
  match field with
  | None => true
  | Some a => bool_decide (stored ≠ a)
  end.

(** [field == "literal"] for a field of the request body. *)
Definition loose_eq_lit (field : option string) (lit : string) : bool :=
  match field with
  | None => false
  | Some s => bool_decide (s = lit)
  end.

(** [a !== b] where [b] is a nullable column: a number is never [null]. *)
Definition strict_neq_nullable (a : Z) (b : option Z) : bool :=
  match b with
  | None => true
  | Some b => bool_decide (a ≠ b)
  end.

(** The test the three mutating task handlers share:
    [!projectMember || (userId !== task.assigneeId &&
       projectMember.role !== "owner" && userId !== task.createdBy)] *)
Definition not_authorized (projectMember : option Member.t) (userId : Z)
    (task : Z * Task.t) : bool :=
  match projectMember with
  | None => true
  | Some pm =>
      bool_decide (userId ≠ Task.assigneeId task.2)
      && bool_decide (Member.role pm ≠ "owner")
      && strict_neq_nullable userId (Task.createdBy task.2)
  end.

(** [date - null] is [date - 0]: the difference [new Date() - started_date]
    takes a null date as the epoch. *)
Definition date_to_number (started_date : option Z) : Z :=
  default 0 started_date.

(** [order: [["status", "DESC"]]] *)
Definition order_by_status_desc (l : list (Z * Task.t)) : list (Z * Task.t) :=
  merge_sort (λ a b, String.le (Task.status b.2) (Task.status a.2)) l.

(** ** The task controller *)

(** The body of a request to [createTask].  [projectId] and [assigneeId] are
    ids; the other fields may be absent. *)
Module CreateTaskBody.
Record t := mk {
  assigneeId : Z;
  projectId : Z;
  name : option string;
  description : option string;
  priority : option string;
  dueDate : option Z;
  difficulty : option string;
  createdBy : option Z;
}.
End CreateTaskBody.

(** The body of a request to [updateTask]: each field is absent
    ([undefined] once destructured) or has a value of the type of its
    column.  The handler destructures nine keys; a start date the client
    sends along ([started_date], absent, null or a date) is a key it never
    reads. *)
Module UpdateTaskBody.
Record t := mk {
  name : option string;
  description : option string;
  priority : option string;
  dueDate : option Z;
  difficulty : option string;
  assigneeId : option Z;
  projectId : option Z;
  exception : option bool;
  status : option string;
  started_date : option (option Z);
}.
End UpdateTaskBody.

Definition getTask (taskId userId : Z) : M Sent :=
  try_catch
    (task ← Task_findByPk taskId;
     match task with
     | None => fail 404 "Task not found"
     | Some task =>
         projectMember ← ProjectMembers_findOne userId (Task.projectId task.2);
         match projectMember with
         | None => fail 403 "You are not a member of this project"
         | Some _ => ok_data "Task found" (PTask task)
         end
     end)
    internal_error.

Definition createTask (userId : Z) (body : CreateTaskBody.t) : M Sent :=
  let '(CreateTaskBody.mk assigneeId projectId name description priority
          dueDate difficulty createdBy) := body in
  try_catch
    (projectMember ← ProjectMembers_findOne userId projectId;
     match projectMember with
     | None => fail 403 "You are not a member of this project"
     | Some _ =>
         assigneeMember ← ProjectMembers_findOne assigneeId projectId;
         match assigneeMember with
         | None => fail 403 "The assignee is not a member of this project"
         | Some _ =>
             project ← Project_findByPk projectId;
             match project with
             | None => fail 404 "Project not found"
             | Some _ =>
                 user ← User_findByPk assigneeId;
                 match user with
                 | None => fail 404 "User not found"
                 | Some _ =>
                     newTask ← Task_create name description priority dueDate
                                 difficulty projectId assigneeId createdBy;
                     ok_data "Task created successfully" (PTask newTask)
                 end
             end
         end
     end)
    internal_error.

Definition deleteTask (taskId userId : Z) : M Sent :=
  try_catch
    (task ← Task_findByPk taskId;
     match task with
     | None => fail 404 "Task not found"
     | Some task =>
         projectMember ← ProjectMembers_findOne userId (Task.projectId task.2);
         if not_authorized projectMember userId task
         then fail 403 "You are not authorized to perform this action."
         else
           _ ← Task_destroy task;
           ok "Task deleted successfully"
     end)
    internal_error.

Definition updateTask (taskId userId : Z) (body : UpdateTaskBody.t) : M Sent :=
  let '(UpdateTaskBody.mk name description priority dueDate difficulty
          assigneeId projectId exception status _) := body in
  try_catch
    (task ← Task_findByPk taskId;
     match task with
     | None => fail 404 "Task not found."
     | Some task =>
         projectMember ← ProjectMembers_findOne userId (Task.projectId task.2);
         if not_authorized projectMember userId task
         then fail 403 "You are not authorized to perform this action."
         else if bool_decide (Task.status task.2 = "completed")
         then fail 403 "Task is already completed. Please open another task."
         else if loose_neq (Task.assigneeId task.2) assigneeId then
           (* the assignee is being changed *)
           let started_date := None in
           task ← Task_update task
                    (mkPatch name description priority dueDate difficulty
                       assigneeId projectId exception
                       (Some "todo") (Some started_date));
           ok_data "Task updated successfully" (PTask task)
         else
           let plain_update : M Sent :=
             task ← Task_update task
                      (mkPatch name description priority dueDate difficulty
                         assigneeId projectId exception status None);
             ok_data "Task updated successfully" (PTask task) in
           if loose_eq_lit status "in-progress" then
             if bool_decide (Task.status task.2 = "in-progress")
             then fail 403 "Task is already in progress."
             else
               match Task.started_date task.2 with
               | None =>
                   started_date ← new_Date;
                   task ← Task_update task
                            (mkPatch name description priority dueDate
                               difficulty assigneeId projectId exception
                               status (Some (Some started_date)));
                   ok_data "Task updated successfully" (PTask task)
               | Some _ => plain_update
               end
           else plain_update
     end)
    internal_error.

(** [Math.floor(diffInMs / (1000 * 60 * 60))] for a difference that is not
    negative. *)
Definition ms_to_hours (diffInMs : Z) : Z := diffInMs / (1000 * 60 * 60).

Definition completeTask (taskId userId : Z) : M Sent :=
  try_catch
    (task ← Task_findByPk taskId;
     match task with
     | None => fail 404 "Task not found."
     | Some task =>
         if bool_decide (Task.status task.2 ≠ "in-progress")
         then fail 403 "Task is not in progress. First make it in progress."
         else
           projectMember ← ProjectMembers_findOne userId (Task.projectId task.2);
           if not_authorized projectMember userId task
           then fail 403 "You are not authorized to perform this action."
           else
             now ← new_Date;
             let diffInMs := Z.abs (now - date_to_number (Task.started_date task.2)) in
             let diffInHours := ms_to_hours diffInMs in
             task ← (if bool_decide (diffInHours = 0)
                     then Task_update task
                            (mkPatch None None None None None None None
                               (Some true) None None)
                     else mret task);
             completed_date ← new_Date;
             completedTask ← CompletedTask_create taskId userId
                               (Task.projectId task.2) (Task.started_date task.2)
                               completed_date diffInHours;
             _ ← Task_update task
                   (mkPatch None None None None None None None None
                      (Some "completed") None);
             ok_data "Task completed successfully" (PCompletedTask completedTask)
     end)
    internal_error.

(** Reading [.role] of a membership that was not found. *)
Definition role_of (m : option Member.t) : M string :=
  match m with
  | Some m => mret (Member.role m)
  | None => throw "Cannot read properties of null (reading 'role')"
  end.

Definition getTasksProject (projectId userId : Z) : M Sent :=
  try_catch
    (project ← Project_findByPk projectId;
     match project with
     | None => fail 404 "Project not found"
     | Some project =>
         organization ← Organization_findByPk (Project.organizationId project.2);
         match organization with
         | None => fail 404 "Organization not found"
         | Some organization =>
             organizationMember ←
               OrganizationMembers_findOne userId organization.1;
             projectMember ← ProjectMembers_findOne userId projectId;
             denied ← match projectMember with
                      | Some _ => mret false
                      | None =>
                          role ← role_of organizationMember;
                          mret (bool_decide (role ≠ "owner"))
                      end;
             if denied : bool
             then fail 403 "You are not authorized to perform this action."
             else
               tasks ← Task_findAll (λ t,
                         bool_decide (Task.projectId t = projectId)
                         && bool_decide (Task.status t ≠ "completed"));
               ok_data "Tasks retrieved successfully"
                 (PTasks (order_by_status_desc tasks))
         end
     end)
    internal_error.

Definition getTasksCurrentUser (userId : Z) : M Sent :=
  try_catch
    (tasks ← Task_findAll (λ t, bool_decide (Task.assigneeId t = userId));
     ok_data "Tasks retrieved successfully" (PTasks tasks))
    internal_error.

Definition getTasksUser (organizationId projectId userId currentUserId : Z)
    : M Sent :=
  try_catch
    (organization ← Organization_findByPk organizationId;
     project ← Project_findByPk projectId;
     user ← User_findByPk userId;
     organization_id ←
       match organization with
       | Some o => mret o.1
       | None => throw "Cannot read properties of null (reading 'id')"
       end;
     organizationMember ←
       OrganizationMembers_findOne currentUserId organization_id;
     projectMember ← ProjectMembers_findOne currentUserId projectId;
     denied ← match projectMember with
              | None => mret true
              | Some _ =>
                  role ← role_of organizationMember;
                  mret (bool_decide (role ≠ "owner"))
              end;
     if denied : bool
     then fail 403 "You are not authorized to perform this action."
     else
       match project, user, organization with
       | Some project, Some _, Some _ =>
           tasks ← Task_findAll (λ t,
                     bool_decide (Task.assigneeId t = userId)
                     && bool_decide (Task.projectId t = project.1));
           ok_data "Tasks retrieved successfully" (PTasks tasks)
       | _, _, _ => fail 404 "User, Project, or Organization not found"
       end)
    internal_error.

Definition getCompletedTasksProject (projectId userId : Z) : M Sent :=
  try_catch
    (project ← Project_findByPk projectId;
     match project with
     | None => fail 404 "Project not found"
     | Some project =>
         organization ← Organization_findByPk (Project.organizationId project.2);
         match organization with
         | None => fail 404 "Organization not found"
         | Some organization =>
             organizationMember ←
               OrganizationMembers_findOne userId organization.1;
             projectMember ← ProjectMembers_findOne userId projectId;
             denied ← match projectMember with
                      | Some _ => mret false
                      | None =>
                          role ← role_of organizationMember;
                          mret (bool_decide (role ≠ "owner"))
                      end;
             if denied : bool
             then fail 403 "You are not authorized to perform this action."
             else
               tasks ← CompletedTask_findAll (λ c,
                         bool_decide (CompletedTask.project_id c = projectId));
               ok_data "Tasks retrieved successfully" (PCompletedTasks tasks)
         end
     end)
    internal_error.

(** ** The ORM calls of the organization controller *)

Definition Organization_create (name description : option string)
    : M (Z * Organization.t) :=
  statement (λ d,
    let o := Organization.mk name description in
    match organizations d !! nextId d with
    | Some _ => inl "Validation error"
    | None =>
        inr ((nextId d, o), set_organizations <[nextId d := o]> (bump_nextId d))
    end).

(** [organization.update({ name, description })] *)
Definition Organization_update (organization : Z * Organization.t)
    (name description : option string) : M (Z * Organization.t) :=
  let set o := Organization.mk (patched name (Organization.name o))
                 (patched description (Organization.description o)) in
  statement (λ d,
    inr ((organization.1, set organization.2),
         set_organizations (alter set organization.1) d)).

Definition Organization_destroy (organization : Z * Organization.t) : M unit :=
  statement (λ d, inr (tt, set_organizations (delete organization.1) d)).

(** [OrganizationMembers.create]: the pair (organization, user) is unique. *)
Definition OrganizationMembers_create (organizationId userId : Z)
    (role : string) : M Member.t :=
  statement (λ d,
    match organizationMembers d !! (organizationId, userId) with
    | Some _ => inl "Validation error"
    | None =>
        inr (Member.mk organizationId userId role,
             set_organizationMembers <[(organizationId, userId) := role]> d)
    end).

Definition member_of_row (row : Z * Z * string) : Member.t :=
  Member.mk row.1.1 row.1.2 row.2.

Definition OrganizationMembers_findAll (where_ : Member.t → bool)
    : M (list Member.t) :=
  query (λ d,
    filter (λ m, where_ m = true)
           (member_of_row <$> map_to_list (organizationMembers d))).

(** [findAll] with [include: { model: Organization }] *)
Definition OrganizationMembers_findAll_Organization (where_ : Member.t → bool)
    : M (list (Member.t * option Organization.t)) :=
  query (λ d,
    (λ m, (m, organizations d !! Member.scopeId m))
      <$> filter (λ m, where_ m = true)
                 (member_of_row <$> map_to_list (organizationMembers d))).

(** [findAll] with [include: { model: User }] *)
Definition OrganizationMembers_findAll_User (where_ : Member.t → bool)
    : M (list (Member.t * option User.t)) :=
  query (λ d,
    (λ m, (m, users d !! Member.userId m))
      <$> filter (λ m, where_ m = true)
                 (member_of_row <$> map_to_list (organizationMembers d))).

(** [organizationMember.destroy()] *)
Definition OrganizationMembers_destroy (m : Member.t) : M unit :=
  statement (λ d,
    inr (tt, set_organizationMembers
               (delete (Member.scopeId m, Member.userId m)) d)).

(** [organizationMember.update({ role })]; an [undefined] role writes
    nothing. *)
Definition OrganizationMembers_update (m : Member.t) (role : option string)
    : M Member.t :=
  statement (λ d,
    inr (Member.mk (Member.scopeId m) (Member.userId m)
           (default (Member.role m) role),
         set_organizationMembers
           (alter (λ old, default old role) (Member.scopeId m, Member.userId m))
           d)).

(** [User.findOne({ where: { email } })] *)
Definition User_findOne (email : string) : M (option (Z * User.t)) :=
  query (λ d,
    head (filter (λ u, User.email u.2 = email) (map_to_list (users d)))).

Definition Invite_create (organizationId : Z) (email : string) (userId : Z)
    (secret : string) : M (Z * Invite.t) :=
  statement (λ d,
    let i := Invite.mk organizationId email userId secret in
    match invites d !! nextId d with
    | Some _ => inl "Validation error"
    | None => inr ((nextId d, i), set_invites <[nextId d := i]> (bump_nextId d))
    end).

(** The row [Invite.findOne({ where: { secret, userId } })] answers with:
    the first one that matches, if any. *)
Definition find_invite (secret : string) (userId : Z) (d : DB)
    : option (Z * Invite.t) :=
  head (filter (λ i : Z * Invite.t,
                  Invite.secret i.2 = secret ∧ Invite.userId i.2 = userId)
               (map_to_list (invites d))).

Definition Invite_findOne (secret : string) (userId : Z)
    : M (option (Z * Invite.t)) :=
  query (find_invite secret userId).

Definition Invite_destroy (invite : Z * Invite.t) : M unit :=
  statement (λ d, inr (tt, set_invites (delete invite.1) d)).

(** ** The organization controller *)

Definition createOrganization (userId : Z) (name description : option string)
    : M Sent :=
  try_catch
    (newOrganization ← Organization_create name description;
     _ ← OrganizationMembers_create newOrganization.1 userId "owner";
     ok_data "Organization created successfully" (POrganization newOrganization))
    internal_error.

(** The success response and the [catch] block of [deleteOrganization] send
    an object with a [message] only. *)
Definition deleteOrganization (organizationId userId : Z) : M Sent :=
  try_catch
    (organizationMember ← OrganizationMembers_findOne userId organizationId;
     if match organizationMember with
        | None => true
        | Some m => bool_decide (Member.role m ≠ "owner")
        end
     then fail 403 "You are unauthorized."
     else
       organization ← Organization_findByPk organizationId;
       match organization with
       | None => fail 404 "Organization not found"
       | Some organization =>
           _ ← Organization_destroy organization;
           mret (Some (Response.mk 200 None
                         (Some "Organization deleted successfully") None))
       end)
    (λ msg, mret (Some (Response.mk 500 None (Some msg) None))).

Definition updateOrganization (organizationId userId : Z)
    (name description : option string) : M Sent :=
  try_catch
    (organizationMember ← OrganizationMembers_findOne userId organizationId;
     if match organizationMember with
        | None => true
        | Some m => bool_decide (Member.role m ≠ "owner")
        end
     then fail 403 "You are unauthorized."
     else
       organization ← Organization_findByPk organizationId;
       match organization with
       | None =>
           mret (Some (Response.mk 404 None (Some "Organization not found") None))
       | Some organization =>
           organization ← Organization_update organization name description;
           ok_data "Organization updated successfully"
             (POrganization organization)
       end)
    internal_error.

Definition getOrganizations (userId : Z) : M Sent :=
  try_catch
    (organizations ← OrganizationMembers_findAll_Organization
                       (λ m, bool_decide (Member.userId m = userId));
     ok_data "Organizations fetched successfully" (PMemberships organizations))
    internal_error.

Definition getOrganizationMembers (organizationId userId : Z) : M Sent :=
  try_catch
    (organizationMember ← OrganizationMembers_findOne userId organizationId;
     match organizationMember with
     | None => fail 403 "You are unauthorized to perform this action."
     | Some _ =>
         organizationMembers ←
           OrganizationMembers_findAll_User
             (λ m, bool_decide (Member.scopeId m = organizationId));
         ok_data "Organization members fetched successfully"
           (PMembers organizationMembers)
     end)
    internal_error.

Definition invitation_text (secret email : string) : string :=
  "Someone invited you to their organization! See the link below to accept or reject the organization: "
  +:+ String (Ascii.ascii_of_nat 10) ""
  +:+ "http://localhost:3000/organizations/invite?secret="
  +:+ secret +:+ "&email=" +:+ email.

Definition inviteUserToOrganization (organizationId userId : Z)
    (email : string) : M Sent :=
  try_catch
    (currentUser ← OrganizationMembers_findOne userId organizationId;
     if match currentUser with
        | None => true
        | Some m => bool_decide (Member.role m ≠ "owner")
        end
     then fail 401 "You are unauthorized to perform this action."
     else
       user ← User_findOne email;
       match user with
       | None => fail 404 "User with this email not found in our records."
       | Some user =>
           organizationMember ← OrganizationMembers_findOne user.1 organizationId;
           match organizationMember with
           | Some _ => fail 400 "User is already a member of the organization"
           | None =>
               secret ← uuidv4;
               invite ← Invite_create organizationId email user.1 secret;
               _ ← sgMail_send email (invitation_text secret email);
               ok_data "User invited successfully" (PInvite invite)
           end
       end)
    internal_error.

Definition acceptInvitation (secret : string) (userId : Z) : M Sent :=
  try_catch
    (invite ← Invite_findOne secret userId;
     match invite with
     | None => fail 404 "Invite not found"
     | Some invite =>
         organizationMember ←
           OrganizationMembers_create (Invite.organizationId invite.2)
             (Invite.userId invite.2) "member";
         _ ← Invite_destroy invite;
         ok_data "Invite accepted successfully." (PMember organizationMember)
     end)
    internal_error.

(** The response object of the success path names [organizationMember],
    which no scope of the module declares: evaluating it throws a
    ReferenceError, after the invite has been destroyed. *)
Definition rejectInvitation (secret : string) (userId : Z) : M Sent :=
  try_catch
    (invite ← Invite_findOne secret userId;
     match invite with
     | None => fail 404 "Invite not found"
     | Some invite =>
         _ ← Invite_destroy invite;
         organizationMember ← throw "organizationMember is not defined";
         ok_data "Invite rejected successfully." (PMember organizationMember)
     end)
    internal_error.

Definition removeOrganizationMember (organizationId userId currentUserId : Z)
    : M Sent :=
  try_catch
    (currentUser ← OrganizationMembers_findOne currentUserId organizationId;
     if match currentUser with
        | None => true
        | Some m => bool_decide (Member.role m ≠ "owner")
        end
     then fail 401 "You are unauthorized to perform this action."
     else
       organizationMember ← OrganizationMembers_findOne userId organizationId;
       match organizationMember with
       | None => fail 400 "User is not a member of the organization"
       | Some organizationMember =>
           if bool_decide (Member.role organizationMember = "owner")
           then fail 400 "You cannot remove an owner of the organization."
           else
             owners ← OrganizationMembers_findAll (λ m,
                        bool_decide (Member.scopeId m = organizationId)
                        && bool_decide (Member.role m = "owner"));
             if bool_decide (length owners = 1%nat)
             then fail 400 "You cannot remove the last owner of the organization."
             else
               _ ← OrganizationMembers_destroy organizationMember;
               ok "User removed from the organization successfully."
       end)
    internal_error.

(** The success path ends after the update: no response is sent. *)
Definition updateOrganizationMember (organizationId userId : Z)
    (role : option string) (currentUserId : Z) : M Sent :=
  try_catch
    (currentUser ← OrganizationMembers_findOne currentUserId organizationId;
     if match currentUser with
        | None => true
        | Some m => bool_decide (Member.role m ≠ "owner")
        end
     then fail 401 "You are unauthorized to perform this action."
     else
       organizationMember ← OrganizationMembers_findOne userId organizationId;
       match organizationMember with
       | None => fail 400 "User is not a member of the organization"
       | Some organizationMember =>
           _ ← OrganizationMembers_update organizationMember role;
           mret None
       end)
    internal_error.

Definition getCurrentUserOrganization (organizationId userId : Z) : M Sent :=
  try_catch
    (organizationMember ← OrganizationMembers_findOne userId organizationId;
     match organizationMember with
     | None => fail 404 "Organization member not found."
     | Some organizationMember =>
         ok_data "Organization member found." (PMember organizationMember)
     end)
    (λ msg,
       fail 500 (if bool_decide (msg = "")
                 then "Some error occurred while retrieving organization member."
                 else msg)).

(** ** [getSession] of the session controller *)

(** The JavaScript values [getSession] handles: a session row, the promise
    [Session.findOne] returns (with what it will settle to), and the
    constants. *)
Inductive jsval : Type :=
  | JsUndefined
  | JsNull
  | JsBool (b : bool)
  | JsSession (s : Z * Session.t)
  | JsPromise (settles_to : option (Z * Session.t)).

(** ToBoolean: every object, a promise included, is truthy. *)
Definition truthy (v : jsval) : bool :=
  match v with
  | JsUndefined | JsNull => false
  | JsBool b => b
  | JsSession _ | JsPromise _ => true
  end.

(** [v.valid]: a promise has no such property. *)
Definition get_valid (v : jsval) : jsval :=
  match v with
  | JsSession s => JsBool (Session.valid s.2)
  | _ => JsUndefined
  end.

(** [Session.findOne({ where: { sessionId } })] as the function calls it,
    without [await]: what the caller holds is the promise. *)
Definition Session_findOne (sessionId : Z) : M jsval := λ w,
  (Done (JsPromise (pair sessionId <$> sessions (db w) !! sessionId)), w).

(** The value the promise returned by [getSession] resolves with. *)
Definition getSession (sessionId : Z) : M jsval :=
  session ← Session_findOne sessionId;
  mret (if truthy session
        then if truthy (get_valid session) then session else JsNull
        else JsNull).

(** ** The session controller: sign-up and login *)

(** The rows of [UserCandidate], as [signUp] and [signUpCandidate] read
    and write them. *)
Module UserCandidate.
Record t := mk { email : string; secret : string; status : string }.
End UserCandidate.

(** What the session controller stores beside the tables of [DB]: the
    candidates, and the [password] column of [User], kept by user id. *)
Record Accounts := mkAccounts {
  userCandidates : gmap Z UserCandidate.t;
  passwords : gmap Z string;
}.

(** [res.cookie(name, value, { maxAge, httpOnly })] *)
Record Cookie := mkCookie {
  cookie_name : string;
  cookie_value : string;
  maxAge : Z;
  httpOnly : bool;
}.

(** What [res.send] is given: an envelope, or a session row as it is. *)
Inductive Body : Type :=
  | BEnvelope (success : bool) (message : string)
              (data : option (Z * UserCandidate.t))
  | BSession (session : Z * Session.t).

Record Reply := mkReply {
  reply_cookies : list Cookie;
  reply_status : Z;
  reply_body : Body;
}.

(** The payload of a token. *)
Inductive Claims : Type :=
  | AccessClaims (id : Z) (email : string) (name : option string)
                 (sessionId : Z)
  | RefreshClaims (sessionId : Z).

(** The world of the session handlers: the world of the other handlers,
    the accounts, and the cookies set on the response so far. *)
Record Site := mkSite {
  world : World;
  accounts : Accounts;
  jar : list Cookie;
}.

Definition Auth (A : Type) : Type := Site → Outcome A * Site.

#[global] Instance Auth_ret : MRet Auth := λ A a s, (Done a, s).
#[global] Instance Auth_bind : MBind Auth := λ A B k m s,
  match m s with
  | (Done a, s') => k a s'
  | (Thrown e, s') => (Thrown e, s')
  end.

Definition auth_try_catch {A} (body : Auth A) (handler : string → Auth A)
    : Auth A := λ s,
  match body s with
  | (Done a, s') => (Done a, s')
  | (Thrown e, s') => handler e s'
  end.

(** A computation of the other controllers, run on the world inside. *)
Definition lift {A} (m : M A) : Auth A := λ s,
  let (o, w) := m (world s) in (o, mkSite w (accounts s) (jar s)).

(** An awaited call that reads or writes the tables and the accounts. *)
Definition auth_statement {A}
    (f : DB → Accounts → string + (A * DB * Accounts)) : Auth A := λ s,
  let w := world s in
  match fault w (calls w) with
  | Some e => (Thrown e, mkSite (tick_call w) (accounts s) (jar s))
  | None =>
      match f (db w) (accounts s) with
      | inl e => (Thrown e, mkSite (tick_call w) (accounts s) (jar s))
      | inr (a, d, acc) => (Done a, mkSite (with_db d (tick_call w)) acc (jar s))
      end
  end.

Definition res_cookie (name value : string) (maxAge : Z) (httpOnly : bool)
    : Auth unit := λ s,
  (Done tt,
   mkSite (world s) (accounts s)
          (jar s ++ [mkCookie name value maxAge httpOnly])).

(** [res.status(c).send(body)], with the cookies set before. *)
Definition res_send (c : Z) (body : Body) : Auth (option Reply) := λ s,
  (Done (Some (mkReply (jar s) c body)), s).

Definition set_users (f : gmap Z User.t → gmap Z User.t) (d : DB) : DB :=
  mkDB (tasks d) (completedTasks d) (projects d) (projectMembers d)
       (f (users d)) (organizations d) (organizationMembers d) (invites d)
       (sessions d) (nextId d).

Definition set_sessions (f : gmap Z Session.t → gmap Z Session.t) (d : DB)
    : DB :=
  mkDB (tasks d) (completedTasks d) (projects d) (projectMembers d)
       (users d) (organizations d) (organizationMembers d) (invites d)
       (f (sessions d)) (nextId d).

(** The row [User.findOne({ where: { email } })] answers with. *)
Definition find_user (email : string) (d : DB) : option (Z * User.t) :=
  head (filter (λ u : Z * User.t, User.email u.2 = email)
               (map_to_list (users d))).

(** The row [UserCandidate.findOne({ where: { email } })] answers with. *)
Definition find_candidate (email : string) (acc : Accounts)
    : option (Z * UserCandidate.t) :=
  head (filter (λ c : Z * UserCandidate.t, UserCandidate.email c.2 = email)
               (map_to_list (userCandidates acc))).

Definition UserCandidate_findOne (email : string)
    : Auth (option (Z * UserCandidate.t)) :=
  auth_statement (λ d acc, inr (find_candidate email acc, d, acc)).

Definition UserCandidate_destroy (c : Z * UserCandidate.t) : Auth unit :=
  auth_statement (λ d acc,
    inr (tt, d, mkAccounts (delete c.1 (userCandidates acc)) (passwords acc))).

(** Modelled from the spec: the models are missing.  [User.create] refuses
    an address that a user already has (section 3: the email is unique),
    and [Session.create] gives the row the default [valid = true]
    (section 3: a session is invalidated later, at logout). *)
Definition User_create (name : option string) (email password : string)
    : Auth (Z * User.t) :=
  auth_statement (λ d acc,
    let u := User.mk name email in
    match find_user email d, users d !! nextId d with
    | None, None =>
        inr ((nextId d, u), set_users <[nextId d := u]> (bump_nextId d),
             mkAccounts (userCandidates acc)
                        (<[nextId d := password]> (passwords acc)))
    | _, _ => inl "Validation error"
    end).

Definition Session_create (userId : Z) : Auth (Z * Session.t) :=
  auth_statement (λ d acc,
    let s := Session.mk userId true in
    match sessions d !! nextId d with
    | Some _ => inl "Validation error"
    | None =>
        inr ((nextId d, s), set_sessions <[nextId d := s]> (bump_nextId d),
             acc)
    end).

(** [error.message || fallback] *)
Definition message_or (msg fallback : string) : string :=
  if bool_decide (msg = "") then fallback else msg.

Definition registration_text (secret email : string) : string :=
  "Please follow the link below to continue to registration process: "
  +:+ String (Ascii.ascii_of_nat 10) ""
  +:+ "http://localhost:3000/auth/signup?secret="
  +:+ secret +:+ "&email=" +:+ email.

(** The bodies of the three requests. *)
Module SignUpBody.
Record t := mk {
  name : option string;
  email : string;
  password : string;
  secret : string;
}.
End SignUpBody.

Module LoginBody.
Record t := mk { email : string; password : string }.
End LoginBody.

Section session_controller.

(** The library calls, and the defaults of the missing models:
    [bcrypt.hashSync], [bcrypt.compareSync], [signJWT] of
    [../utils/jwt.utils.js], and the status a new candidate gets. *)
Context (hashSync : string → Z → string)
        (compareSync : string → string → bool)
        (signJWT : Claims → string → string)
        (candidate_status : string).

Definition UserCandidate_create (email secret : string)
    : Auth (Z * UserCandidate.t) :=
  auth_statement (λ d acc,
    let c := UserCandidate.mk email secret candidate_status in
    match userCandidates acc !! nextId d with
    | Some _ => inl "Validation error"
    | None =>
        inr ((nextId d, c), bump_nextId d,
             mkAccounts (<[nextId d := c]> (userCandidates acc))
                        (passwords acc))
    end).

Definition signUp (body : SignUpBody.t) : Auth (option Reply) :=
  auth_try_catch
    (userCandidate ← UserCandidate_findOne (SignUpBody.email body);
     match userCandidate with
     | None => res_send 401 (BEnvelope false "Invalid email or secret" None)
     | Some userCandidate =>
         if bool_decide (UserCandidate.status userCandidate.2 ≠ "pending")
            || bool_decide (UserCandidate.secret userCandidate.2
                            ≠ SignUpBody.secret body)
         then res_send 401 (BEnvelope false "Invalid email or secret" None)
         else if bool_decide (UserCandidate.secret userCandidate.2
                              ≠ SignUpBody.secret body)
         then res_send 401 (BEnvelope false "Invalid secret" None)
         else
           _ ← User_create (SignUpBody.name body) (SignUpBody.email body)
                 (hashSync (SignUpBody.password body) 8);
           res_send 201 (BEnvelope true "User is successfully created." None)
     end)
    (λ msg,
       res_send 500
         (BEnvelope false
            (message_or msg "Some error occurred while creating the User.")
            None)).

Definition signUpCandidate (email : string) : Auth (option Reply) :=
  auth_try_catch
    (user ← lift (User_findOne email);
     match user with
     | Some _ =>
         res_send 401
           (BEnvelope false "User with this email already exists." None)
     | None =>
         userCandidateSearch ← UserCandidate_findOne email;
         _ ← match userCandidateSearch with
             | Some c => UserCandidate_destroy c
             | None => mret tt
             end;
         secret ← lift uuidv4;
         userCandidate ← UserCandidate_create email secret;
         _ ← lift (sgMail_send email (registration_text secret email));
         res_send 201
           (BEnvelope true
              "Please check your email to continue sign up process."
              (Some userCandidate))
     end)
    (λ msg,
       res_send 500
         (BEnvelope false
            (message_or msg "Some error occurred while creating the User.")
            None)).

(** [user.password], which [compareSync] cannot take when it is missing. *)
Definition password_of (userId : Z) : Auth string := λ s,
  match passwords (accounts s) !! userId with
  | Some p => (Done p, s)
  | None => (Thrown "Illegal arguments: string, undefined", s)
  end.

(** [createSession] has no [try]: a call that throws rejects the promise of
    the handler and nothing is sent. *)
Definition createSession (body : LoginBody.t) : Auth (option Reply) :=
  user ← lift (User_findOne (LoginBody.email body));
  match user with
  | None => res_send 401 (BEnvelope false "Invalid email or password" None)
  | Some user =>
      stored ← password_of user.1;
      if bool_decide (compareSync (LoginBody.password body) stored = false)
      then res_send 401 (BEnvelope false "Invalid email or password" None)
      else
        session ← Session_create user.1;
        let accessToken :=
          signJWT (AccessClaims user.1 (User.email user.2) (User.name user.2)
                                session.1) "4h" in
        let refreshToken := signJWT (RefreshClaims session.1) "1y" in
        _ ← res_cookie "accessToken" accessToken 900000 true;
        _ ← res_cookie "refreshToken" refreshToken 3600000 true;
        res_send 200 (BSession session)
  end.

End session_controller.

(** Running a session handler for one request: the response starts with no
    cookie set, and a handler that throws sends nothing. *)
Definition answer (h : Auth (option Reply)) (s : Site) : option Reply * Site :=
  match h (mkSite (world s) (accounts s) []) with
  | (Done r, s') => (r, s')
  | (Thrown _, s') => (None, s')
  end.

(** ** Requests *)

(** The endpoints of the task and organization controllers, with what each
    reads from the route, the body and the authenticated user. *)
Inductive Request : Type :=
  | GetTask (taskId userId : Z)
  | CreateTask (userId : Z) (body : CreateTaskBody.t)
  | DeleteTask (taskId userId : Z)
  | UpdateTask (taskId userId : Z) (body : UpdateTaskBody.t)
  | CompleteTask (taskId userId : Z)
  | GetTasksProject (projectId userId : Z)
  | GetTasksCurrentUser (userId : Z)
  | GetTasksUser (organizationId projectId userId currentUserId : Z)
  | GetCompletedTasksProject (projectId userId : Z)
  | CreateOrganization (userId : Z) (name description : option string)
  | DeleteOrganization (organizationId userId : Z)
  | UpdateOrganization (organizationId userId : Z)
      (name description : option string)
  | GetOrganizations (userId : Z)
  | GetOrganizationMembers (organizationId userId : Z)
  | InviteUserToOrganization (organizationId userId : Z) (email : string)
  | AcceptInvitation (secret : string) (userId : Z)
  | RejectInvitation (secret : string) (userId : Z)
  | RemoveOrganizationMember (organizationId userId currentUserId : Z)
  | UpdateOrganizationMember (organizationId userId : Z)
      (role : option string) (currentUserId : Z)
  | GetCurrentUserOrganization (organizationId userId : Z).

Definition handler (r : Request) : M Sent :=
  match r with
  | GetTask t u => getTask t u
  | CreateTask u b => createTask u b
  | DeleteTask t u => deleteTask t u
  | UpdateTask t u b => updateTask t u b
  | CompleteTask t u => completeTask t u
  | GetTasksProject p u => getTasksProject p u
  | GetTasksCurrentUser u => getTasksCurrentUser u
  | GetTasksUser o p u c => getTasksUser o p u c
  | GetCompletedTasksProject p u => getCompletedTasksProject p u
  | CreateOrganization u n d => createOrganization u n d
  | DeleteOrganization o u => deleteOrganization o u
  | UpdateOrganization o u n d => updateOrganization o u n d
  | GetOrganizations u => getOrganizations u
  | GetOrganizationMembers o u => getOrganizationMembers o u
  | InviteUserToOrganization o u e => inviteUserToOrganization o u e
  | AcceptInvitation s u => acceptInvitation s u
  | RejectInvitation s u => rejectInvitation s u
  | RemoveOrganizationMember o u c => removeOrganizationMember o u c
  | UpdateOrganizationMember o u r c => updateOrganizationMember o u r c
  | GetCurrentUserOrganization o u => getCurrentUserOrganization o u
  end.

(** Serving a request, and serving a sequence of them one after the other. *)
Definition serve (r : Request) (w : World) : Sent * World := run (handler r) w.

Fixpoint serve_all (rs : list Request) (w : World) : World :=
  match rs with
  | [] => w
  | r :: rs => serve_all rs (serve r w).2
  end.

(** ** States and environments used in the examples *)

(** A world over [d] in which no datastore call fails and the clock reads
    [now] every time. *)
Definition calm (d : DB) (now : Z) : World :=
  mkWorld d [] (λ _, None) 0 (λ _, now) 0 (λ _, "secret") 0.

(** No datastore call of the run throws. *)
Definition no_fault (w : World) : Prop := ∀ n, fault w n = None.

(** A world over [d] in which the fourth datastore call of the run throws. *)
Definition fourth_call_fails (d : DB) (now : Z) : World :=
  mkWorld d [] (λ n, if (n =? 3)%nat then Some "connection lost" else None) 0
          (λ _, now) 0 (λ _, "secret") 0.

Definition task_1 (status : string) (started_date : option Z) : Task.t :=
  Task.mk (Some "write report") None None None None 10 7 (Some 8) false
          status started_date.

(** Project 10 with owner 9 and members 7 and 8, and task 1 assigned to 7 and
    created by 8. *)
Definition db_1 (status : string) (started_date : option Z) : DB :=
  mkDB {[ 1 := task_1 status started_date ]} ∅
       {[ 10 := Project.mk 20 (Some "P") ]}
       {[ (10, 7) := "member"; (10, 8) := "member"; (10, 9) := "owner" ]}
       ∅ ∅ ∅ ∅ ∅ 2.

(** Organization 20 with its only owner 9 and member 8; user 7 holds an
    invite with secret ["s-1"]; session 5 of user 9 is valid. *)
Definition db_2 : DB :=
  mkDB ∅ ∅ ∅ ∅
       {[ 7 := User.mk (Some "G") "g@example.org";
          8 := User.mk (Some "M") "m@example.org";
          9 := User.mk (Some "O") "o@example.org" ]}
       {[ 20 := Organization.mk (Some "Acme") None ]}
       {[ (20, 8) := "member"; (20, 9) := "owner" ]}
       {[ 3 := Invite.mk 20 "g@example.org" 7 "s-1" ]}
       {[ 5 := Session.mk 9 true ]} 6.

(** ** Notions the statements use *)

(** The actor passes the authorization test of the mutating task handlers,
    given the membership [ProjectMembers.findOne] finds for them. *)
Definition authorized (d : DB) (userId : Z) (task : Z * Task.t) : Prop :=
  not_authorized
    (Member.mk (Task.projectId task.2) userId
       <$> projectMembers d !! (Task.projectId task.2, userId))
    userId task = false.

(** The object literal [updateTask] hands to [task.update] when the assignee
    changes. *)
Definition reassign_patch (body : UpdateTaskBody.t) : TaskPatch :=
  mkPatch (UpdateTaskBody.name body) (UpdateTaskBody.description body)
    (UpdateTaskBody.priority body) (UpdateTaskBody.dueDate body)
    (UpdateTaskBody.difficulty body) (UpdateTaskBody.assigneeId body)
    (UpdateTaskBody.projectId body) (UpdateTaskBody.exception body)
    (Some "todo") (Some None).

(** The responses of the task handlers that the statements name. *)
Definition task_updated (task : Z * Task.t) : Response.t :=
  Response.mk 200 (Some true) (Some "Task updated successfully")
              (Some (PTask task)).

Definition forbidden (message : string) : Response.t :=
  Response.mk 403 (Some false) (Some message) None.

Definition not_found (message : string) : Response.t :=
  Response.mk 404 (Some false) (Some message) None.

(** An empty request body, and bodies that set one or two fields. *)
Definition no_fields : UpdateTaskBody.t :=
  UpdateTaskBody.mk None None None None None None None None None None.

Definition with_status (status : string) (assigneeId : option Z)
    : UpdateTaskBody.t :=
  UpdateTaskBody.mk None None None None None assigneeId None None
                    (Some status) None.

Definition task_completed (c : Z * CompletedTask.t) : Response.t :=
  Response.mk 200 (Some true) (Some "Task completed successfully")
              (Some (PCompletedTask c)).

Definition invite_accepted (m : Member.t) : Response.t :=
  Response.mk 200 (Some true) (Some "Invite accepted successfully.")
              (Some (PMember m)).

(** The order of the statuses the specification describes. *)
Definition rank (status : string) : nat :=
  if bool_decide (status = "todo") then 0
  else if bool_decide (status = "in-progress") then 1 else 2.

(** The hours [completeTask] counts for a task at time [now], and the task
    as it stores it. *)
Definition elapsed_hours (now : Z) (task : Task.t) : Z :=
  ms_to_hours (Z.abs (now - date_to_number (Task.started_date task))).

Definition completed (now : Z) (task : Task.t) : Task.t :=
  Task.mk (Task.name task) (Task.description task) (Task.priority task)
    (Task.dueDate task) (Task.difficulty task) (Task.projectId task)
    (Task.assigneeId task) (Task.createdBy task)
    (if bool_decide (elapsed_hours now task = 0) then true
     else Task.exception task)
    "completed" (Task.started_date task).

(** The completion records of a task. *)
Definition records_of (taskId : Z) (d : DB) : gmap Z CompletedTask.t :=
  filter (λ c, CompletedTask.task_id c.2 = taskId) (completedTasks d).

(** The sequence has passed the id of the task, and the task has no
    completion record, or it has one and is completed (or gone). *)
Definition one_record (taskId : Z) (d : DB) : Prop :=
  taskId < nextId d
  ∧ (size (records_of taskId d) = 0%nat
     ∨ (size (records_of taskId d) = 1%nat
        ∧ ∀ t, tasks d !! taskId = Some t → Task.status t = "completed")).

(** Every task in progress has a start date. *)
Definition started_when_in_progress (d : DB) : Prop :=
  ∀ k t,
    tasks d !! k = Some t →
    Task.status t = "in-progress" →
    is_Some (Task.started_date t).

(** No invite carries the secret. *)
Definition no_invite (secret : string) (d : DB) : Prop :=
  ∀ k i, invites d !! k = Some i → Invite.secret i ≠ secret.


(** The members of an organization whose role is [owner]. *)
Definition owners (organizationId : Z) (d : DB) : gmap (Z * Z) string :=
  filter (λ m, m.1.1 = organizationId ∧ m.2 = "owner") (organizationMembers d).

(** The handlers that go on after a write: a second write, or the
    construction of the response, can still throw. *)
Definition continues_after_a_write (r : Request) : bool :=
  match r with
  | CreateOrganization _ _ _ | AcceptInvitation _ _ | RejectInvitation _ _
  | CompleteTask _ _ => true
  | _ => false
  end.

(** A response was sent and it has the two mandatory keys of the envelope. *)
Definition is_envelope (sent : Sent) : Prop :=
  ∃ resp,
    sent = Some resp
    ∧ is_Some (Response.success resp) ∧ is_Some (Response.message resp).

(** The handlers with a path that sends something else than the envelope. *)
Definition leaves_the_envelope (r : Request) : bool :=
  match r with
  | DeleteOrganization _ _ | UpdateOrganization _ _ _ _
  | UpdateOrganizationMember _ _ _ _ => true
  | _ => false
  end.

(** ** Further states used in the examples *)

(** A world over [d] in which the datastore call number [n] of the run
    (counted from 0) throws, and no other. *)
Definition call_fails (n : nat) (d : DB) (now : Z) : World :=
  mkWorld d [] (λ i, if (i =? n)%nat then Some "connection lost" else None) 0
          (λ _, now) 0 (λ _, "secret") 0.

(** Organization 20 with owners 9 and 11 and member 8; its project 10 with
    owner 9 and members 7 and 8; task 1 of user 7 is to do, task 2 of user 8
    is in progress and task 3 of user 7 is completed. *)
Definition db_3 : DB :=
  mkDB {[ 1 := task_1 "todo" None;
          2 := Task.mk (Some "review") None None None None 10 8 (Some 9) false
                       "in-progress" (Some 1000);
          3 := task_1 "completed" None ]} ∅
       {[ 10 := Project.mk 20 (Some "P") ]}
       {[ (10, 7) := "member"; (10, 8) := "member"; (10, 9) := "owner" ]}
       {[ 7 := User.mk (Some "G") "g@example.org";
          8 := User.mk (Some "M") "m@example.org";
          9 := User.mk (Some "O") "o@example.org" ]}
       {[ 20 := Organization.mk (Some "Acme") None ]}
       {[ (20, 8) := "member"; (20, 9) := "owner"; (20, 11) := "owner" ]}
       ∅ ∅ 30.

(** Stand-ins for the library calls in the examples: a hash that
    [compare_1] accepts for its own password only, and tokens that name
    their kind and lifetime. *)
Definition hash_1 (password : string) (rounds : Z) : string :=
  "hash:" +:+ password.

Definition compare_1 (password stored : string) : bool :=
  bool_decide (stored = "hash:" +:+ password).

Definition sign_1 (claims : Claims) (expiresIn : string) : string :=
  match claims with
  | AccessClaims _ _ _ _ => "access-" +:+ expiresIn
  | RefreshClaims _ => "refresh-" +:+ expiresIn
  end.

(** The state [db_3] with a pending candidate for ["n@example.org"] and the
    password ["pw"] of user 9, on the world [w]. *)
Definition site_1 (w : World) : Site :=
  mkSite w
         (mkAccounts {[ 2 := UserCandidate.mk "n@example.org" "s-9" "pending" ]}
                     {[ 9 := "hash:pw" ]})
         [].

(** ** Further notions the statements use *)



(** The requests that only read. *)
Definition reads_only (r : Request) : bool :=
  match r with
  | GetTask _ _ | GetTasksProject _ _ | GetTasksCurrentUser _
  | GetTasksUser _ _ _ _ | GetCompletedTasksProject _ _ | GetOrganizations _
  | GetOrganizationMembers _ _ | GetCurrentUserOrganization _ _ => true
  | _ => false
  end.

(** The statuses the handlers send. *)
Definition known_status (c : Z) : Prop :=
  c = 200 ∨ c = 400 ∨ c = 401 ∨ c = 403 ∨ c = 404 ∨ c = 500.

(** The task [createTask] stores for a request body. *)
Definition new_task (body : CreateTaskBody.t) : Task.t :=
  Task.mk (CreateTaskBody.name body) (CreateTaskBody.description body)
    (CreateTaskBody.priority body) (CreateTaskBody.dueDate body)
    (CreateTaskBody.difficulty body) (CreateTaskBody.projectId body)
    (CreateTaskBody.assigneeId body) (CreateTaskBody.createdBy body)
    false "todo" None.

(** The success response of the listings. *)
Definition tasks_retrieved (p : Payload) : Response.t :=
  Response.mk 200 (Some true) (Some "Tasks retrieved successfully") (Some p).

(** The actor is an owner of the organization. *)
Definition is_owner (d : DB) (organizationId userId : Z) : Prop :=
  organizationMembers d !! (organizationId, userId) = Some "owner".

(** The requests reserved to the owners of an organization, with the
    organization and the actor. *)
Definition owner_only (r : Request) : option (Z * Z) :=
  match r with
  | DeleteOrganization o u | UpdateOrganization o u _ _
  | InviteUserToOrganization o u _ => Some (o, u)
  | RemoveOrganizationMember o _ c | UpdateOrganizationMember o _ _ c =>
      Some (o, c)
  | _ => None
  end.

(** The requests that can change who owns an organization. *)
Definition touches_owners (r : Request) : bool :=
  match r with
  | CreateOrganization _ _ _ | DeleteOrganization _ _
  | UpdateOrganizationMember _ _ _ _ => true
  | _ => false
  end.

Definition user_invited (i : Z * Invite.t) : Response.t :=
  Response.mk 200 (Some true) (Some "User invited successfully")
              (Some (PInvite i)).

Definition bad_request (message : string) : Response.t :=
  Response.mk 400 (Some false) (Some message) None.

(** ** Tactics *)

Ltac unfold_handlers :=
  unfold serve, run, handler,
    getTask, createTask, deleteTask, updateTask, completeTask,
    getTasksProject, getTasksCurrentUser, getTasksUser,
    getCompletedTasksProject, createOrganization, deleteOrganization,
    updateOrganization, getOrganizations, getOrganizationMembers,
    inviteUserToOrganization, acceptInvitation, rejectInvitation,
    removeOrganizationMember, updateOrganizationMember,
    getCurrentUserOrganization, internal_error, fail, ok, ok_data, role_of,
    try_catch, mbind, mret, M_bind, M_ret, bind, ret, throw.

Ltac unfold_orm :=
  unfold Task_findByPk, Task_create, Task_update, Task_destroy, Task_findAll,
    CompletedTask_create, CompletedTask_findAll, Project_findByPk,
    User_findByPk, Organization_findByPk, ProjectMembers_findOne,
    OrganizationMembers_findOne, Organization_create, Organization_update,
    Organization_destroy, OrganizationMembers_create,
    OrganizationMembers_findAll, OrganizationMembers_findAll_Organization,
    OrganizationMembers_findAll_User, OrganizationMembers_destroy,
    OrganizationMembers_update, User_findOne, Invite_create, Invite_findOne,
    Invite_destroy, new_Date, uuidv4, sgMail_send, query, statement.

(** Runs a handler in a world whose datastore calls all succeed
    ([Hnf : no_fault w]), one call at a time. *)
Ltac run_calm Hnf :=
  unfold_handlers; unfold_orm;
  repeat (cbn -[Task_set find_invite]; rewrite ?Hnf).

(** Turns what a branch of a handler has tested into plain facts. *)
Ltac inv_found :=
  repeat match goal with
  | H : _ <$> _ = Some _ |- _ =>
      apply fmap_Some in H as (? & ? & ?); simplify_eq/=
  | H : _ <$> _ = None |- _ => apply fmap_None in H
  | H : bool_decide _ = false |- _ => apply bool_decide_eq_false in H
  | H : bool_decide _ = true |- _ => apply bool_decide_eq_true in H
  | H : ¬ (_ ≠ _) |- _ => apply dec_stable in H
  end.

(** Case analysis over every branch a handler can take, whatever the
    environment answers. *)
Ltac all_branches :=
  unfold_handlers; unfold_orm; cbn -[Task_set find_invite];
  repeat (case_match; simplify_eq/=); inv_found.

(** Closes the branches in which a datastore call throws, in a world where
    none does. *)
Ltac no_throw Hnf :=
  try match goal with
      | H : fault _ _ = Some _ |- _ => by rewrite Hnf in H
      end.

(** Reads a lookup in a table that a handler has written to. *)
Ltac inv_lookup :=
  repeat match goal with
  | H : ∃ _, _ |- _ => destruct H as (? & ? & ?)
  | H : _ ∧ _ |- _ => destruct H
  | H : _ ∨ _ |- _ => destruct H
  | H : alter _ _ _ !! _ = Some _ |- _ => apply lookup_alter_Some in H
  | H : delete _ _ !! _ = Some _ |- _ => apply lookup_delete_Some in H
  | H : <[_:=_]> _ !! _ = Some _ |- _ => apply lookup_insert_Some in H
  end; simplify_eq/=.

(** As [run_calm], keeping the search for a user by address folded. *)
Ltac run_calm_users Hnf :=
  unfold_handlers;
  repeat match goal with
  | |- context [User_findOne ?e] =>
      change (User_findOne e) with (query (find_user e))
  end;
  unfold_orm;
  repeat (cbn -[Task_set find_invite find_user]; rewrite ?Hnf).

(** The actor has been found to be an owner. *)
Ltac owner_passes :=
  rewrite (bool_decide_eq_false_2 ("owner" ≠ "owner"))
    by (let H := fresh in intros H; by apply H).

(** Settles a statement about every row of a closed table by running the
    test on each row. *)
Ltac by_rows :=
  let k := fresh "k" in
  let x := fresh "x" in
  let Hk := fresh "Hk" in
  intros k x Hk; revert k x Hk;
  refine (proj1 (map_Forall_lookup _ _) _);
  refine (bool_decide_unpack _ _); vm_compute; exact I.

Ltac unfold_auth :=
  unfold answer, signUp, signUpCandidate, createSession, auth_try_catch,
    password_of, res_send, res_cookie, UserCandidate_findOne,
    UserCandidate_destroy, UserCandidate_create, User_create, Session_create,
    lift, auth_statement, mbind, mret, Auth_bind, Auth_ret;
  repeat match goal with
  | |- context [User_findOne ?e] =>
      change (User_findOne e) with (query (find_user e))
  end;
  unfold uuidv4, sgMail_send, query.

(** Runs a session handler whose datastore calls all succeed. *)
Ltac run_auth Hnf :=
  unfold_auth;
  repeat (cbn -[find_user find_candidate]; rewrite ?Hnf).

Ltac auth_branches :=
  unfold_auth; cbn -[find_user find_candidate];
  repeat (case_match; simplify_eq/=); inv_found.

(** ** What serving a request leaves alone *)

(** Serving a request changes neither what the environment will answer nor,
    by itself, the identifiers it will draw. *)
Lemma environment_serve r w :
  fault (serve r w).2 = fault w ∧ uuid (serve r w).2 = uuid w.
Proof. destruct r; try destruct body; all_branches; done. Qed.

Lemma no_fault_serve r w : no_fault w → no_fault (serve r w).2.
Proof.
  intros Hnf n. destruct (environment_serve r w) as [-> _]. apply Hnf.
Qed.


(** The sequence of ids never goes back. *)
Lemma nextId_serve r w : nextId (db w) ≤ nextId (db (serve r w).2).
Proof. destruct r; try destruct body; all_branches; lia. Qed.

(** ** [updateTask] *)

Section updateTask.

Context (w : World) (taskId userId : Z) (body : UpdateTaskBody.t) (t : Task.t).

Hypothesis calm_world : no_fault w.
Hypothesis found : tasks (db w) !! taskId = Some t.
Hypothesis allowed : authorized (db w) userId (taskId, t).
Hypothesis not_completed : Task.status t ≠ "completed".

(** The branch taken when [task.assigneeId != assigneeId]. *)
Lemma updateTask_reassign :
  loose_neq (Task.assigneeId t) (UpdateTaskBody.assigneeId body) = true →
  ∃ w', serve (UpdateTask taskId userId body) w
        = (Some (task_updated (taskId, Task_set (reassign_patch body) t)), w')
      ∧ db w' = set_tasks (alter (Task_set (reassign_patch body)) taskId) (db w).
Proof.
  intros Hneq. destruct body. cbn in Hneq.
  unfold authorized in allowed. cbn in allowed.
  run_calm calm_world. rewrite found. run_calm calm_world.
  rewrite allowed, bool_decide_eq_false_2, Hneq by done.
  run_calm calm_world. eexists. split; reflexivity.
Qed.

(** C4.  An authorized [updateTask] on a task that is not completed and whose
    stored assignee differs from the [assigneeId] of the request succeeds
    and leaves the task with status [todo] and no start date, whatever
    status and start date the request carries. *)
Theorem updateTask_reassignment_restarts_progress :
  loose_neq (Task.assigneeId t) (UpdateTaskBody.assigneeId body) = true →
  ∃ resp w' t',
    serve (UpdateTask taskId userId body) w = (Some resp, w')
    ∧ Response.success resp = Some true
    ∧ tasks (db w') !! taskId = Some t'
    ∧ Task.status t' = "todo"
    ∧ Task.started_date t' = None
    ∧ Task.assigneeId t'
      = default (Task.assigneeId t) (UpdateTaskBody.assigneeId body).
Proof.
  intros Hneq. destruct (updateTask_reassign Hneq) as (w' & Hrun & Hdb).
  exists (task_updated (taskId, Task_set (reassign_patch body) t)), w',
    (Task_set (reassign_patch body) t).
  split; [done|]. split; [done|]. split; [|done].
  rewrite Hdb. cbn. by rewrite lookup_alter_eq, found.
Qed.

(** C10.  When the request has no [assigneeId], the stored assignee compares
    unequal to [undefined], so the handler takes the reassignment branch: the
    task goes back to [todo] with no start date, and keeps its assignee. *)
Theorem updateTask_without_assigneeId_restarts_progress :
  UpdateTaskBody.assigneeId body = None →
  loose_neq (Task.assigneeId t) (UpdateTaskBody.assigneeId body) = true
  ∧ ∃ w' t',
      serve (UpdateTask taskId userId body) w
      = (Some (task_updated (taskId, t')), w')
      ∧ tasks (db w') !! taskId = Some t'
      ∧ Task.status t' = "todo"
      ∧ Task.started_date t' = None
      ∧ Task.assigneeId t' = Task.assigneeId t.
Proof.
  intros Hnone.
  assert (Hneq : loose_neq (Task.assigneeId t) (UpdateTaskBody.assigneeId body)
                 = true) by (by rewrite Hnone).
  split; [done|].
  destruct (updateTask_reassign Hneq) as (w' & Hrun & Hdb).
  exists w', (Task_set (reassign_patch body) t).
  split; [done|]. split.
  { rewrite Hdb. cbn. by rewrite lookup_alter_eq, found. }
  cbn. by rewrite Hnone.
Qed.


End updateTask.

Lemma updateTask_reassignment_restarts_progress_witness :
  let w := calm (db_1 "in-progress" (Some 3)) 5000 in
  let body := with_status "in-progress" (Some 8) in
  ∃ resp w' t',
    serve (UpdateTask 1 9 body) w = (Some resp, w')
    ∧ Response.success resp = Some true
    ∧ tasks (db w') !! 1 = Some t'
    ∧ Task.status t' = "todo"
    ∧ Task.started_date t' = None
    ∧ Task.assigneeId t' = 8.
Proof.
  apply (updateTask_reassignment_restarts_progress
           (calm (db_1 "in-progress" (Some 3)) 5000) 1 9
           (with_status "in-progress" (Some 8))
           (task_1 "in-progress" (Some 3))).
  - intros n. reflexivity.
  - reflexivity.
  - reflexivity.
  - vm_compute. discriminate.
  - reflexivity.
Defined.

Lemma updateTask_without_assigneeId_restarts_progress_witness :
  let w := calm (db_1 "in-progress" (Some 3)) 5000 in
  loose_neq 7 (UpdateTaskBody.assigneeId no_fields) = true
  ∧ ∃ w' t',
      serve (UpdateTask 1 7 no_fields) w = (Some (task_updated (1, t')), w')
      ∧ tasks (db w') !! 1 = Some t'
      ∧ Task.status t' = "todo"
      ∧ Task.started_date t' = None
      ∧ Task.assigneeId t' = 7.
Proof.
  apply (updateTask_without_assigneeId_restarts_progress
           (calm (db_1 "in-progress" (Some 3)) 5000) 1 7 no_fields
           (task_1 "in-progress" (Some 3))).
  - intros n. reflexivity.
  - reflexivity.
  - reflexivity.
  - vm_compute. discriminate.
  - reflexivity.
Defined.


(** The scenario of the specification, for a request that repeats the
    assignee: the first request for [in-progress] records the start, the
    second is answered Forbidden. *)
Example start_then_start_again :
  let body := with_status "in-progress" (Some 7) in
  let w1 := (serve (UpdateTask 1 7 body) (calm (db_1 "todo" None) 5000)).2 in
  tasks (db w1) !! 1 = Some (task_1 "in-progress" (Some 5000))
  ∧ (serve (UpdateTask 1 7 body) w1).1
    = Some (forbidden "Task is already in progress.")
  ∧ db (serve (UpdateTask 1 7 body) w1).2 = db w1.
Proof. vm_compute. done. Qed.

(** The same request without [assigneeId] takes the reassignment branch and
    leaves the task in [todo]. *)
Example start_without_assigneeId :
  let body := with_status "in-progress" None in
  let w1 := (serve (UpdateTask 1 7 body) (calm (db_1 "todo" None) 5000)).2 in
  tasks (db w1) !! 1 = Some (task_1 "todo" None).
Proof. vm_compute. done. Qed.


(** ** Completed tasks *)

(** A completed task leaves the table by [deleteTask] only. *)
Lemma completed_task_leaves_by_deleteTask r w k t :
  tasks (db w) !! k = Some t →
  Task.status t = "completed" →
  tasks (db (serve r w).2) !! k = Some t
  ∨ (tasks (db (serve r w).2) !! k = None ∧ ∃ userId, r = DeleteTask k userId).
Proof.
  intros Ht Hst.
  destruct r; try destruct body; all_branches; auto.
  all: try (destruct (decide (taskId = k)) as [->|Hne]; simplify_eq/=).
  all: try (rewrite lookup_delete_eq; eauto).
  all: try (rewrite !lookup_delete_ne by done; auto).
  all: try (rewrite !lookup_alter_ne by done; auto).
  all: try (rewrite lookup_insert_ne by congruence; auto).
  all: exfalso; congruence.
Qed.

(** An id the sequence has passed is not given to a new task. *)
Lemma absent_task_stays_absent r w k :
  k < nextId (db w) →
  tasks (db w) !! k = None →
  tasks (db (serve r w).2) !! k = None.
Proof.
  intros Hlt Hk.
  destruct r; try destruct body; all_branches; try done.
  all: rewrite ?lookup_alter_None, ?lookup_delete_None, ?lookup_insert_None.
  all: try done; try (by right); try (split; [done|lia]).
Qed.

Lemma absent_task_along_a_run rs w k :
  k < nextId (db w) →
  tasks (db w) !! k = None →
  tasks (db (serve_all rs w)) !! k = None.
Proof.
  revert w. induction rs as [|r rs IH]; intros w Hlt Hk; [done|].
  cbn. apply IH; [pose proof (nextId_serve r w); lia|].
  by apply absent_task_stays_absent.
Qed.

Lemma completed_task_leaves_along_a_run rs w k t :
  k < nextId (db w) →
  tasks (db w) !! k = Some t →
  Task.status t = "completed" →
  tasks (db (serve_all rs w)) !! k = Some t
  ∨ (tasks (db (serve_all rs w)) !! k = None
     ∧ ∃ userId, DeleteTask k userId ∈ rs).
Proof.
  revert w. induction rs as [|r rs IH]; intros w Hlt Hk Hst; [by left|].
  cbn.
  assert (Hlt' : k < nextId (db (serve r w).2))
    by (pose proof (nextId_serve r w); lia).
  destruct (completed_task_leaves_by_deleteTask r w k t Hk Hst)
    as [Hkept|[Hgone [userId ->]]].
  - destruct (IH _ Hlt' Hkept Hst) as [?|[? [userId Hin]]]; [by left|].
    right. split; [done|]. exists userId. by apply list_elem_of_further.
  - right. split; [by apply absent_task_along_a_run|].
    exists userId. apply list_elem_of_here.
Qed.

Lemma updateTask_on_completed w taskId userId body t :
  tasks (db w) !! taskId = Some t →
  Task.status t = "completed" →
  db (serve (UpdateTask taskId userId body) w).2 = db w
  ∧ (no_fault w →
     ∃ message,
       (serve (UpdateTask taskId userId body) w).1 = Some (forbidden message)).
Proof.
  intros Ht Hst. split.
  - destruct body; all_branches; auto; exfalso; congruence.
  - intros Hnf. destruct body. run_calm Hnf. rewrite Ht. run_calm Hnf.
    destruct (not_authorized _ _ _); [by eexists|].
    rewrite bool_decide_eq_true_2 by done. by eexists.
Qed.

Lemma completeTask_unless_in_progress w taskId userId t :
  tasks (db w) !! taskId = Some t →
  Task.status t ≠ "in-progress" →
  db (serve (CompleteTask taskId userId) w).2 = db w
  ∧ (no_fault w →
     (serve (CompleteTask taskId userId) w).1
     = Some (forbidden "Task is not in progress. First make it in progress.")).
Proof.
  intros Ht Hst. split.
  - all_branches; auto; exfalso; congruence.
  - intros Hnf. run_calm Hnf. rewrite Ht. run_calm Hnf.
    by rewrite bool_decide_eq_true_2.
Qed.

(** C1, as the code has it.  A completed task is never modified again:
    after any request of the two controllers it is still stored unchanged,
    unless the request was a [deleteTask] of that task, which removed it;
    and so it is along any sequence of requests once the sequence of ids
    has passed its id: the task is stored unchanged, or it is gone and a
    [deleteTask] of it is among the requests.  [updateTask] on it writes
    nothing and answers Forbidden, and so does [completeTask], whose
    in-progress precondition fails. *)
Theorem completed_is_terminal w k t :
  tasks (db w) !! k = Some t →
  Task.status t = "completed" →
  (∀ r, tasks (db (serve r w).2) !! k = Some t
        ∨ (tasks (db (serve r w).2) !! k = None
           ∧ ∃ userId, r = DeleteTask k userId))
  ∧ (k < nextId (db w) →
     ∀ rs, tasks (db (serve_all rs w)) !! k = Some t
           ∨ (tasks (db (serve_all rs w)) !! k = None
              ∧ ∃ userId, DeleteTask k userId ∈ rs))
  ∧ (∀ userId body,
       db (serve (UpdateTask k userId body) w).2 = db w
       ∧ (no_fault w →
          ∃ message,
            (serve (UpdateTask k userId body) w).1 = Some (forbidden message)))
  ∧ (∀ userId,
       db (serve (CompleteTask k userId) w).2 = db w
       ∧ (no_fault w →
          (serve (CompleteTask k userId) w).1
          = Some (forbidden
                    "Task is not in progress. First make it in progress."))).
Proof.
  intros Ht Hst. split; [|split; [|split]].
  - intros r. by apply completed_task_leaves_by_deleteTask.
  - intros Hlt rs. by apply completed_task_leaves_along_a_run.
  - intros userId body. by apply (updateTask_on_completed w k userId body t).
  - intros userId. apply (completeTask_unless_in_progress w k userId t Ht).
    by rewrite Hst.
Qed.

Lemma completed_is_terminal_witness :
  let w := calm (db_1 "completed" (Some 3)) 5000 in
  tasks (db w) !! 1 = Some (task_1 "completed" (Some 3))
  ∧ (serve (UpdateTask 1 7 (with_status "todo" (Some 7))) w).1
    = Some (forbidden "Task is already completed. Please open another task.")
  ∧ db (serve (UpdateTask 1 7 (with_status "todo" (Some 7))) w).2 = db w
  ∧ (serve (CompleteTask 1 7) w).1
    = Some (forbidden "Task is not in progress. First make it in progress.")
  ∧ db (serve (CompleteTask 1 7) w).2 = db w.
Proof.
  pose proof (completed_is_terminal (calm (db_1 "completed" (Some 3)) 5000) 1
                (task_1 "completed" (Some 3)) eq_refl eq_refl)
    as (_ & _ & Hupdate & Hcomplete).
  split; [reflexivity|].
  split; [reflexivity|].
  split; [apply (Hupdate 7 (with_status "todo" (Some 7)))|].
  split; [apply (Hcomplete 7); intros n; reflexivity|apply (Hcomplete 7)].
Defined.

(** C1, as stated, fails: the status of a task does not only move forward
    along todo, in-progress, completed.  The owner of project 10 hands the
    in-progress task 1 from user 7 to user 8, and the task is back in
    [todo]. *)
Lemma status_moves_back_on_reassignment :
  ¬ (∀ r w k t t',
       tasks (db w) !! k = Some t →
       tasks (db (serve r w).2) !! k = Some t' →
       (rank (Task.status t) ≤ rank (Task.status t'))%nat).
Proof.
  intros Hforward.
  specialize (Hforward (UpdateTask 1 9 (with_status "in-progress" (Some 8)))
                (calm (db_1 "in-progress" (Some 3)) 5000) 1
                (task_1 "in-progress" (Some 3))
                (Task.mk (Some "write report") None None None None 10 8
                         (Some 8) false "todo" None)
                eq_refl eq_refl).
  vm_compute in Hforward. lia.
Qed.

(** The status also moves from [todo] straight to [completed], with a plain
    update and no completion record. *)
Example updateTask_sets_completed_directly :
  let w' := (serve (UpdateTask 1 7 (with_status "completed" (Some 7)))
               (calm (db_1 "todo" None) 5000)).2 in
  Task.status <$> tasks (db w') !! 1 = Some "completed"
  ∧ completedTasks (db w') = ∅.
Proof. split; reflexivity. Qed.

(** ** [completeTask] *)

Lemma records_of_insert k n c (m : gmap Z CompletedTask.t) :
  m !! n = None →
  size (filter (λ c : Z * CompletedTask.t, CompletedTask.task_id c.2 = k)
               (<[n := c]> m))
  = if decide (CompletedTask.task_id c = k)
    then S (size (filter (λ c : Z * CompletedTask.t,
                            CompletedTask.task_id c.2 = k) m))
    else size (filter (λ c : Z * CompletedTask.t,
                         CompletedTask.task_id c.2 = k) m).
Proof.
  intros Hn. destruct (decide _) as [Hk|Hk].
  - rewrite map_filter_insert_True by done.
    rewrite map_size_insert_None; [done|].
    apply map_lookup_filter_None_2. by left.
  - rewrite map_filter_insert_not'; [done|done|].
    intros y Hy. congruence.
Qed.

Lemma one_record_serve r w k :
  no_fault w → one_record k (db w) → one_record k (db (serve r w).2).
Proof.
  intros Hnf (Hlt & Hrec). unfold one_record, records_of in *.
  destruct r; try destruct body; run_calm Hnf;
    repeat (case_match; simplify_eq/=); inv_found; no_throw Hnf;
    rewrite ?records_of_insert by done.
  all: try (split; [lia|done]).
  all: split; [lia|].
  all: try (destruct (decide (taskId = k)) as [->|Hne]).
  all: destruct Hrec as [Hz|[Ho Hc]].
  all: repeat case_decide; simplify_eq/=.
  all: try (left; done).
  all: try (exfalso;
            match goal with
            | H : tasks _ !! _ = Some _ |- _ => apply Hc in H; congruence
            end).
  all: right; split; [congruence|].
  all: intros t0;
       rewrite ?lookup_alter_ne, ?lookup_delete_ne, ?lookup_insert_ne
         by (done || lia);
       try apply Hc.
  all: rewrite ?lookup_alter_eq, ?lookup_delete_eq; try done.
  all: match goal with
       | H : tasks _ !! _ = Some _ |- _ => rewrite H
       end; cbn; intros [= <-]; done.
Qed.

(** Without datastore faults, a task whose id the sequence has passed and
    that has no completion record never gets more than one. *)
Lemma at_most_one_record rs w k :
  no_fault w →
  one_record k (db w) →
  one_record k (db (serve_all rs w)).
Proof.
  revert w. induction rs as [|r rs IH]; intros w Hnf Hinv; [done|].
  cbn. apply IH; [by apply no_fault_serve|by apply one_record_serve].
Qed.

(** A task in progress has a start date in every state reached from one
    where this holds: the hours [completeTask] counts are those since the
    start. *)
Lemma started_when_in_progress_serve r w :
  started_when_in_progress (db w) →
  started_when_in_progress (db (serve r w).2).
Proof.
  intros Hinv. unfold started_when_in_progress in *.
  destruct r; try destruct body; all_branches; try done.
  all: intros k0 t0 Hk0 Hst0; inv_lookup; eauto.
  destruct status as [s|]; cbn in *; [|by eauto].
  subst s.
  match goal with
  | H : bool_decide _ = false |- _ => by rewrite bool_decide_eq_true_2 in H
  end.
Qed.

(** X22.  Along any sequence of requests, whatever the datastore answers: if
    every task in progress has a start date, then so it is after the
    sequence; no request leaves a task in progress without one. *)
Lemma started_when_in_progress_serve_all rs w :
  started_when_in_progress (db w) →
  started_when_in_progress (db (serve_all rs w)).
Proof.
  revert w. induction rs as [|r rs IH]; intros w Hinv; [done|].
  cbn. by apply IH, started_when_in_progress_serve.
Qed.

Lemma started_when_in_progress_serve_all_witness :
  let w := calm db_3 5000 in
  let rs := [UpdateTask 1 7 (with_status "in-progress" (Some 7));
             UpdateTask 2 9 (with_status "todo" (Some 7));
             CompleteTask 1 7] in
  started_when_in_progress (db (serve_all rs w)).
Proof.
  intros w rs. apply started_when_in_progress_serve_all.
  unfold started_when_in_progress. by_rows.
Defined.

Lemma completeTask_success w taskId userId t :
  no_fault w →
  tasks (db w) !! taskId = Some t →
  Task.status t = "in-progress" →
  authorized (db w) userId (taskId, t) →
  completedTasks (db w) !! nextId (db w) = None →
  let now := date w (reads w) in
  let c := CompletedTask.mk taskId userId (Task.projectId t)
             (Task.started_date t) (date w (S (reads w)))
             (elapsed_hours now t) in
  ∃ w',
    serve (CompleteTask taskId userId) w
    = (Some (task_completed (nextId (db w), c)), w')
    ∧ completedTasks (db w') = <[nextId (db w) := c]> (completedTasks (db w))
    ∧ tasks (db w') = <[taskId := completed now t]> (tasks (db w)).
Proof.
  intros Hnf Ht Hst Hauth Hfree now c.
  unfold authorized in Hauth. cbn in Hauth.
  run_calm Hnf. rewrite Ht. run_calm Hnf.
  rewrite bool_decide_eq_false_2 by (intros Hne; by apply Hne).
  run_calm Hnf. rewrite Hauth. run_calm Hnf.
  fold (elapsed_hours (date w (reads w)) t).
  unfold completed. fold now.
  destruct (bool_decide (elapsed_hours now t = 0)) eqn:Hzero.
  - run_calm Hnf. rewrite Hfree. run_calm Hnf.
    eexists. split; [reflexivity|]. split; [reflexivity|]. cbn.
    apply map_eq. intros i. destruct (decide (i = taskId)) as [->|Hne].
    + rewrite !lookup_alter_eq, lookup_insert_eq, Ht. cbn.
      destruct t; reflexivity.
    + by rewrite !lookup_alter_ne, lookup_insert_ne.
  - run_calm Hnf. rewrite Hfree. run_calm Hnf.
    eexists. split; [reflexivity|]. split; [reflexivity|]. cbn.
    apply map_eq. intros i. destruct (decide (i = taskId)) as [->|Hne].
    + rewrite !lookup_alter_eq, lookup_insert_eq, Ht. cbn.
      destruct t; reflexivity.
    + by rewrite !lookup_alter_ne, lookup_insert_ne.
Qed.

Lemma completeTask_succeeds_only_in_progress w taskId userId t resp :
  no_fault w →
  tasks (db w) !! taskId = Some t →
  (serve (CompleteTask taskId userId) w).1 = Some resp →
  Response.success resp = Some true →
  Task.status t = "in-progress"
  ∧ authorized (db w) userId (taskId, t)
  ∧ completedTasks (db w) !! nextId (db w) = None.
Proof.
  intros Hnf Ht Hrun Hok. unfold authorized. revert Hrun.
  run_calm Hnf. rewrite Ht. run_calm Hnf.
  repeat (case_match; simplify_eq/=); inv_found; intros; simplify_eq/=;
    try done; no_throw Hnf.
Qed.

(** C2, as the code has it.  When the datastore calls succeed,
    [completeTask] answers Forbidden, writing nothing, unless the task is in
    progress.  It succeeds exactly for an authorized actor on a task in
    progress; it then stores one new completion record, whose hours are the
    whole hours in the absolute difference between the clock and the start
    date of the task (a start date that is null counts as 0), sets the
    exception flag when those hours are zero and leaves it as it was
    otherwise, and sets the status to [completed].  Completing the task
    again is answered Forbidden and writes nothing, and along any sequence
    of requests the task has at most one completion record. *)
Theorem completeTask_records_one_completion w taskId userId t :
  no_fault w →
  tasks (db w) !! taskId = Some t →
  let now := date w (reads w) in
  let started :=
    match Task.started_date t with Some started => started | None => 0 end in
  let c := CompletedTask.mk taskId userId (Task.projectId t)
             (Task.started_date t) (date w (S (reads w)))
             (Z.abs (now - started) / 3600000) in
  (Task.status t ≠ "in-progress" →
   (serve (CompleteTask taskId userId) w).1
   = Some (forbidden "Task is not in progress. First make it in progress.")
   ∧ db (serve (CompleteTask taskId userId) w).2 = db w)
  ∧ (∀ resp,
       (serve (CompleteTask taskId userId) w).1 = Some resp →
       Response.success resp = Some true →
       Task.status t = "in-progress"
       ∧ authorized (db w) userId (taskId, t)
       ∧ completedTasks (db w) !! nextId (db w) = None)
  ∧ (Task.status t = "in-progress" →
     authorized (db w) userId (taskId, t) →
     completedTasks (db w) !! nextId (db w) = None →
     ∃ w' t',
       serve (CompleteTask taskId userId) w
       = (Some (task_completed (nextId (db w), c)), w')
       ∧ completedTasks (db w') = <[nextId (db w) := c]> (completedTasks (db w))
       ∧ tasks (db w') = <[taskId := t']> (tasks (db w))
       ∧ Task.status t' = "completed"
       ∧ (CompletedTask.hours c = 0 → Task.exception t' = true)
       ∧ (CompletedTask.hours c ≠ 0 → Task.exception t' = Task.exception t)
       ∧ (∀ w2 userId2,
            db w2 = db w' →
            no_fault w2 →
            (serve (CompleteTask taskId userId2) w2).1
            = Some (forbidden
                      "Task is not in progress. First make it in progress.")
            ∧ db (serve (CompleteTask taskId userId2) w2).2 = db w2))
  ∧ (taskId < nextId (db w) →
     size (records_of taskId (db w)) = 0%nat →
     ∀ rs, (size (records_of taskId (db (serve_all rs w))) ≤ 1)%nat).
Proof.
  intros Hnf Ht now started c. split; [|split; [|split]].
  - intros Hst.
    destruct (completeTask_unless_in_progress w taskId userId t Ht Hst)
      as [Hdb Hresp].
    split; [by apply Hresp|done].
  - intros resp. by apply completeTask_succeeds_only_in_progress.
  - intros Hst Hauth Hfree.
    destruct (completeTask_success w taskId userId t)
      as (w' & Hrun & Hc & Htasks); try done.
    exists w', (completed now t).
    split; [exact Hrun|]. split; [exact Hc|]. split; [exact Htasks|].
    split; [reflexivity|]. split; [|split].
    + intros Hzero. cbn in Hzero. unfold completed, elapsed_hours, ms_to_hours.
      fold now. by rewrite bool_decide_eq_true_2.
    + intros Hpos. cbn in Hpos. unfold completed, elapsed_hours, ms_to_hours.
      fold now. by rewrite bool_decide_eq_false_2.
    + intros w2 userId2 Hdb2 Hnf2.
      assert (Ht2 : tasks (db w2) !! taskId = Some (completed now t))
        by (by rewrite Hdb2, Htasks, lookup_insert_eq).
      destruct (completeTask_unless_in_progress w2 taskId userId2 _ Ht2)
        as [Hdb Hresp]; [done|].
      split; [by apply Hresp|done].
  - intros Hlt Hzero rs.
    destruct (at_most_one_record rs w taskId Hnf) as (_ & [->| [-> _]]); [|lia..].
    split; [done|by left].
Qed.

Lemma completeTask_records_one_completion_witness :
  let w := calm (db_1 "in-progress" (Some 7200000)) 12600000 in
  ∃ w' t',
    serve (CompleteTask 1 7) w
    = (Some (task_completed
               (2, CompletedTask.mk 1 7 10 (Some 7200000) 12600000 1)), w')
    ∧ completedTasks (db w')
      = <[2 := CompletedTask.mk 1 7 10 (Some 7200000) 12600000 1]> ∅
    ∧ tasks (db w') !! 1 = Some t'
    ∧ Task.status t' = "completed"
    ∧ Task.exception t' = false.
Proof.
  intros w.
  destruct (completeTask_records_one_completion w 1 7
              (task_1 "in-progress" (Some 7200000)))
    as (_ & _ & Hsuccess & _).
  - intros n. reflexivity.
  - reflexivity.
  - destruct Hsuccess as (w' & t' & Hrun & Hc & Ht & Hst & _ & Hexc & _).
    + reflexivity.
    + reflexivity.
    + reflexivity.
    + exists w', t'. split; [exact Hrun|]. split; [exact Hc|].
      split; [rewrite Ht; apply lookup_insert_eq|].
      split; [exact Hst|]. apply Hexc. vm_compute. discriminate.
Defined.

(** C2, as stated, fails in its last part: [completeTask] makes its writes
    one after the other, without a transaction.  Task 1 is in progress since
    7200000 and the clock reads 12600000; the fourth datastore call of the
    run, which sets the status, throws.  The completion record is stored,
    the task stays in progress, and completing it again stores a second
    record. *)
Lemma completeTask_twice_after_a_failed_update :
  let w := fourth_call_fails (db_1 "in-progress" (Some 7200000)) 12600000 in
  let w1 := (serve (CompleteTask 1 7) w).2 in
  let w2 := (serve (CompleteTask 1 7) w1).2 in
  (serve (CompleteTask 1 7) w).1
  = Some (Response.mk 500 (Some false) (Some "connection lost") None)
  ∧ tasks (db w1) !! 1 = Some (task_1 "in-progress" (Some 7200000))
  ∧ (serve (CompleteTask 1 7) w1).1
    = Some (task_completed
              (3, CompletedTask.mk 1 7 10 (Some 7200000) 12600000 1))
  ∧ completedTasks (db w2)
    = {[ 2 := CompletedTask.mk 1 7 10 (Some 7200000) 12600000 1;
         3 := CompletedTask.mk 1 7 10 (Some 7200000) 12600000 1 ]}
  ∧ size (records_of 1 (db w2)) = 2%nat.
Proof. vm_compute. done. Qed.

(** The two scenarios of the specification: ninety minutes of work count as
    one hour; ten seconds count as none and raise the exception flag. *)
Example completeTask_after_ninety_minutes :
  let w' := (serve (CompleteTask 1 7)
               (calm (db_1 "in-progress" (Some 0)) 5400000)).2 in
  CompletedTask.hours <$> completedTasks (db w') !! 2 = Some 1
  ∧ Task.status <$> tasks (db w') !! 1 = Some "completed"
  ∧ Task.exception <$> tasks (db w') !! 1 = Some false.
Proof. vm_compute. done. Qed.

Example completeTask_after_ten_seconds :
  let w' := (serve (CompleteTask 1 7)
               (calm (db_1 "in-progress" (Some 0)) 10000)).2 in
  CompletedTask.hours <$> completedTasks (db w') !! 2 = Some 0
  ∧ Task.status <$> tasks (db w') !! 1 = Some "completed"
  ∧ Task.exception <$> tasks (db w') !! 1 = Some true.
Proof. vm_compute. done. Qed.

(** ** Invitations *)

Lemma find_invite_unique secret userId d k i :
  invites d !! k = Some i →
  Invite.secret i = secret →
  Invite.userId i = userId →
  (∀ k' i', invites d !! k' = Some i' → Invite.secret i' = secret → k' = k) →
  find_invite secret userId d = Some (k, i).
Proof.
  intros Hk Hs Hu Huniq. unfold find_invite.
  destruct (filter _ _) as [|[k' i'] l] eqn:Hl.
  - assert (Hin : (k, i) ∈ filter (λ i : Z * Invite.t,
                      Invite.secret i.2 = secret ∧ Invite.userId i.2 = userId)
                    (map_to_list (invites d))).
    { apply list_elem_of_filter. split; [done|]. by apply elem_of_map_to_list. }
    rewrite Hl in Hin. by apply not_elem_of_nil in Hin.
  - assert (Hin : (k', i') ∈ filter (λ i : Z * Invite.t,
                      Invite.secret i.2 = secret ∧ Invite.userId i.2 = userId)
                    (map_to_list (invites d))).
    { rewrite Hl. apply list_elem_of_here. }
    apply list_elem_of_filter in Hin as [[Hs' _] Hin]. cbn in Hs'.
    apply elem_of_map_to_list in Hin.
    assert (k' = k) as -> by (by eapply Huniq).
    cbn. congruence.
Qed.











(** X23.  What [rejectInvitation] answers once it has destroyed the invite: the
    response object is never built, and the [catch] block reports the
    ReferenceError. *)
Lemma rejectInvitation_reports_failure w secret userId k i :
  no_fault w →
  invites (db w) !! k = Some i →
  Invite.secret i = secret →
  Invite.userId i = userId →
  (∀ k' i', invites (db w) !! k' = Some i' → Invite.secret i' = secret → k' = k) →
  (serve (RejectInvitation secret userId) w).1
  = Some (Response.mk 500 (Some false)
            (Some "organizationMember is not defined") None)
  ∧ invites (db (serve (RejectInvitation secret userId) w).2) !! k = None.
Proof.
  intros Hnf Hk Hs Hu Huniq.
  pose proof (find_invite_unique secret userId (db w) k i Hk Hs Hu Huniq)
    as Hfind.
  run_calm Hnf. rewrite Hfind. run_calm Hnf.
  split; [reflexivity|apply lookup_delete_eq].
Qed.

Lemma rejectInvitation_reports_failure_witness :
  let w := calm db_2 5000 in
  (serve (RejectInvitation "s-1" 7) w).1
  = Some (Response.mk 500 (Some false)
            (Some "organizationMember is not defined") None)
  ∧ invites (db (serve (RejectInvitation "s-1" 7) w).2) !! 3 = None.
Proof.
  intros w.
  apply (rejectInvitation_reports_failure w "s-1" 7 3
           (Invite.mk 20 "g@example.org" 7 "s-1")).
  - intros n. reflexivity.
  - reflexivity.
  - reflexivity.
  - reflexivity.
  - by_rows.
Defined.

(** The scenario of the specification: the owner invites B, B accepts and
    is a member, and a second accept with the same secret is answered
    NotFound. *)
Example invite_accept_accept :
  let w1 := (serve (InviteUserToOrganization 20 9 "m@example.org")
               (calm (set_organizationMembers (delete (20, 8)) db_2) 5000)).2 in
  let w2 := (serve (AcceptInvitation "secret" 8) w1).2 in
  Invite.secret <$> invites (db w1) !! 6 = Some "secret"
  ∧ organizationMembers (db w2) !! (20, 8) = Some "member"
  ∧ (serve (AcceptInvitation "secret" 8) w2).1
    = Some (not_found "Invite not found").
Proof. vm_compute. done. Qed.

(** ** Owners of an organization *)

(** [removeOrganizationMember] never removes an owner: the owners of every
    organization are the same before and after, whatever the request and
    the environment. *)
Lemma removeOrganizationMember_keeps_owners w organizationId userId actor o :
  owners o (db (serve (RemoveOrganizationMember organizationId userId actor) w).2)
  = owners o (db w).
Proof.
  unfold owners. all_branches; try done.
  apply map_filter_delete_not. intros y Hy [_ Hrole]. cbn in Hrole.
  congruence.
Qed.

(** C3 fails on [updateOrganizationMember], which checks neither the role it
    writes nor how many owners are left: the only owner of organization 20
    sets their own role to [member], and the organization has no owner. *)
Theorem updateOrganizationMember_demotes_the_last_owner :
  let w := calm db_2 5000 in
  let w' := (serve (UpdateOrganizationMember 20 9 (Some "member") 9) w).2 in
  size (owners 20 (db w)) = 1%nat
  ∧ organizationMembers (db w') !! (20, 9) = Some "member"
  ∧ size (owners 20 (db w')) = 0%nat.
Proof. vm_compute. done. Qed.

(** ** Failures and writes *)

(** C7, as the code has it.  A response with a 4xx status is sent before
    the first write, so the datastore is as it was; so it is after a 500
    response of a handler that does not go on after a write.  (The other
    handlers are not transactional.) *)
Theorem failure_before_a_write_changes_nothing r w resp :
  (serve r w).1 = Some resp →
  400 ≤ Response.status resp →
  Response.status resp < 500 ∨ continues_after_a_write r = false →
  db (serve r w).2 = db w.
Proof.
  destruct r; try destruct body; all_branches; intros Hs Hfail Hor;
    simplify_eq/=; try done; try lia; destruct Hor; (done || lia).
Qed.

Lemma failure_before_a_write_changes_nothing_witness :
  let w := calm (db_1 "todo" None) 5000 in
  (serve (CompleteTask 1 7) w).1
  = Some (forbidden "Task is not in progress. First make it in progress.")
  ∧ db (serve (CompleteTask 1 7) w).2 = db w.
Proof.
  split; [reflexivity|].
  apply (failure_before_a_write_changes_nothing (CompleteTask 1 7)
           (calm (db_1 "todo" None) 5000)
           (forbidden "Task is not in progress. First make it in progress.")).
  - reflexivity.
  - vm_compute. discriminate.
  - left. reflexivity.
Defined.

(** C7, as stated, fails.  Task 1 was started ten seconds ago; completing it
    sets the exception flag, then the creation of the completion record
    throws.  The response is a failure envelope, and the flag stays set. *)
Lemma failed_completeTask_keeps_the_exception_flag :
  ¬ (∀ r w resp,
       (serve r w).1 = Some resp →
       Response.success resp = Some false →
       db (serve r w).2 = db w).
Proof.
  intros Hclaim.
  specialize (Hclaim (CompleteTask 1 7)
                (fourth_call_fails (db_1 "in-progress" (Some 0)) 10000)
                (Response.mk 500 (Some false) (Some "connection lost") None)
                eq_refl eq_refl).
  apply (f_equal (λ d, Task.exception <$> tasks d !! 1)) in Hclaim.
  vm_compute in Hclaim. discriminate.
Qed.

(** ** [getSession] *)

(** [getSession] tests the promise, not the row: the promise is truthy and
    has no [valid], so the result is always [null]. *)
Lemma getSession_null sessionId w : getSession sessionId w = (Done JsNull, w).
Proof. reflexivity. Qed.

(** C8 fails: session 5 exists and is valid, and [getSession 5] gives
    [null]. *)
Theorem getSession_misses_a_valid_session :
  let w := calm db_2 5000 in
  sessions (db w) !! 5 = Some (Session.mk 9 true)
  ∧ getSession 5 w = (Done JsNull, w).
Proof. split; reflexivity. Qed.

(** ** The envelope *)

(** C9 fails on two success paths: [deleteOrganization] answers with a
    message and no [success] key, and [updateOrganizationMember] updates the
    role and sends nothing. *)
Theorem two_success_paths_send_no_envelope :
  let w := calm db_2 5000 in
  (serve (DeleteOrganization 20 9) w).1
  = Some (Response.mk 200 None (Some "Organization deleted successfully") None)
  ∧ ¬ is_envelope (serve (DeleteOrganization 20 9) w).1
  ∧ (serve (UpdateOrganizationMember 20 8 (Some "owner") 9) w).1 = None
  ∧ organizationMembers
      (db (serve (UpdateOrganizationMember 20 8 (Some "owner") 9) w).2)
    !! (20, 8) = Some "owner"
  ∧ ¬ is_envelope (serve (UpdateOrganizationMember 20 8 (Some "owner") 9) w).1.
Proof.
  split; [reflexivity|]. split.
  { intros (resp & Heq & [b Hb] & _). vm_compute in Heq.
    injection Heq as <-. discriminate. }
  split; [reflexivity|]. split; [reflexivity|].
  intros (resp & Heq & _). vm_compute in Heq. discriminate.
Qed.

(** X24.  The other handlers of the two controllers send the envelope on every
    path. *)
Lemma other_handlers_send_the_envelope r w :
  leaves_the_envelope r = false → is_envelope (serve r w).1.
Proof.
  destruct r; try destruct body; try done; intros _; all_branches;
    eexists; (split; [reflexivity|]); split; by eexists.
Qed.

Lemma other_handlers_send_the_envelope_witness :
  let w := call_fails 1 db_3 5000 in
  is_envelope (serve (CompleteTask 2 8) w).1.
Proof.
  intros w. apply (other_handlers_send_the_envelope (CompleteTask 2 8) w).
  reflexivity.
Defined.

(** ** Every request: errors, statuses and writes *)

(** X1.  Every handler of the two controllers catches what its datastore calls
    throw: whatever the datastore answers and whichever call fails, the run
    of a request ends normally, never with an exception that leaves the
    handler. *)
Lemma handlers_catch_every_error r w :
  ∃ sent w', handler r w = (Done sent, w').
Proof. destruct r; try destruct body; all_branches; eauto. Qed.

(** X2.  The responses of the two controllers use six statuses only, 200, 400,
    401, 403, 404 and 500; an envelope that reports success has status 200,
    one that reports failure has a status from 400 on, and every response
    carries a message. *)
Lemma responses_have_a_known_status r w resp :
  (serve r w).1 = Some resp →
  known_status (Response.status resp)
  ∧ (Response.success resp = Some true → Response.status resp = 200)
  ∧ (Response.success resp = Some false → 400 ≤ Response.status resp)
  ∧ is_Some (Response.message resp).
Proof.
  unfold known_status.
  destruct r; try destruct body; all_branches; intros; simplify_eq/=;
    (split; [tauto|]); (split; [done|]); (split; [done || lia|]); by eexists.
Qed.

Lemma responses_have_a_known_status_witness :
  let w := calm (db_1 "todo" None) 5000 in
  ∃ resp,
    (serve (DeleteTask 1 9) w).1 = Some resp
    ∧ known_status (Response.status resp)
    ∧ (Response.success resp = Some true → Response.status resp = 200)
    ∧ (Response.success resp = Some false → 400 ≤ Response.status resp)
    ∧ is_Some (Response.message resp).
Proof.
  intros w. eexists. split; [reflexivity|].
  apply (responses_have_a_known_status (DeleteTask 1 9) w). reflexivity.
Defined.

(** X3.  When the first datastore call of a request throws, nothing is
    written and no mail is sent, and the response is 500 with the message
    of the error and no data.  [getCurrentUserOrganization], and no other
    handler, replaces an empty message by its own text; and the failure of
    [deleteOrganization], alone, carries no success flag. *)
Lemma first_call_fault r w e :
  fault w (calls w) = Some e →
  let message :=
    match r with
    | GetCurrentUserOrganization _ _ =>
        if bool_decide (e = "")
        then "Some error occurred while retrieving organization member."
        else e
    | _ => e
    end in
  let success :=
    match r with DeleteOrganization _ _ => None | _ => Some false end in
  (serve r w).1 = Some (Response.mk 500 success (Some message) None)
  ∧ db (serve r w).2 = db w
  ∧ outbox (serve r w).2 = outbox w.
Proof.
  intros He.
  destruct r; try destruct body; unfold_handlers; unfold_orm;
    cbn -[Task_set find_invite]; rewrite He; cbn; repeat split.
Qed.

Lemma first_call_fault_witness :
  (let w := call_fails 0 (db_1 "todo" None) 5000 in
   (serve (DeleteTask 1 9) w).1
   = Some (Response.mk 500 (Some false) (Some "connection lost") None)
   ∧ db (serve (DeleteTask 1 9) w).2 = db w
   ∧ outbox (serve (DeleteTask 1 9) w).2 = outbox w)
  ∧ (let w := mkWorld db_2 [] (λ _, Some "") 0 (λ _, 5000) 0 (λ _, "secret") 0 in
     (serve (GetCurrentUserOrganization 20 9) w).1
     = Some (Response.mk 500 (Some false)
               (Some "Some error occurred while retrieving organization member.")
               None)
     ∧ (serve (GetOrganizationMembers 20 9) w).1
       = Some (Response.mk 500 (Some false) (Some "") None)
     ∧ (serve (DeleteOrganization 20 9) w).1
       = Some (Response.mk 500 None (Some "") None)).
Proof.
  split.
  - intros w. apply (first_call_fault (DeleteTask 1 9) w "connection lost").
    reflexivity.
  - intros w. split; [|split].
    + apply (first_call_fault (GetCurrentUserOrganization 20 9) w "").
      reflexivity.
    + apply (first_call_fault (GetOrganizationMembers 20 9) w "").
      reflexivity.
    + apply (first_call_fault (DeleteOrganization 20 9) w "").
      reflexivity.
Defined.

(** X4.  The eight listing and lookup requests write nothing and send no mail,
    whatever the datastore answers. *)
Lemma read_only_requests_write_nothing r w :
  reads_only r = true →
  db (serve r w).2 = db w ∧ outbox (serve r w).2 = outbox w.
Proof.
  destruct r; try done; intros _; all_branches; done.
Qed.

Lemma read_only_requests_write_nothing_witness :
  let w := call_fails 2 db_3 5000 in
  db (serve (GetTasksProject 10 7) w).2 = db w
  ∧ outbox (serve (GetTasksProject 10 7) w).2 = outbox w.
Proof.
  intros w. apply (read_only_requests_write_nothing (GetTasksProject 10 7) w).
  reflexivity.
Defined.

(** X5.  A mail leaves only when an invitation has been stored: it goes to the
    invited address and carries the secret of the stored invite. *)
Lemma mail_only_for_a_stored_invite r w :
  outbox (serve r w).2 = outbox w
  ∨ ∃ organizationId userId email k i,
      r = InviteUserToOrganization organizationId userId email
      ∧ (serve r w).1
        = Some (Response.mk 200 (Some true) (Some "User invited successfully")
                  (Some (PInvite (k, i))))
      ∧ invites (db (serve r w).2) !! k = Some i
      ∧ Invite.email i = email
      ∧ Invite.organizationId i = organizationId
      ∧ outbox (serve r w).2
        = (email, invitation_text (Invite.secret i) email) :: outbox w.
Proof.
  destruct r; try destruct body; all_branches; auto.
  right. eexists _, _, _, _, _. split; [reflexivity|].
  split; [reflexivity|]. split; [apply lookup_insert_eq|]. done.
Qed.

(** ** Deleting, creating and updating tasks *)

Lemma authorized_iff d userId task :
  authorized d userId task
  ↔ ∃ role,
      projectMembers d !! (Task.projectId task.2, userId) = Some role
      ∧ (userId = Task.assigneeId task.2
         ∨ role = "owner"
         ∨ Task.createdBy task.2 = Some userId).
Proof.
  unfold authorized, not_authorized, strict_neq_nullable.
  destruct (projectMembers d !! _) as [role|]; cbn.
  - rewrite !andb_false_iff, !bool_decide_eq_false. split.
    + intros [[H|H]|H]; exists role; split; try done.
      * left. by apply dec_stable.
      * right. left. by apply dec_stable.
      * right. right. destruct (Task.createdBy task.2); [|done].
        apply bool_decide_eq_false, dec_stable in H. by subst.
    + intros (role' & [= <-] & [H|[H|H]]).
      * left. left. by intros ?.
      * left. right. by intros ?.
      * right. rewrite H. apply bool_decide_eq_false. by intros ?.
  - split; [done|]. by intros (? & ? & _).
Qed.

(** X6.  [deleteTask]: a project member who is the assignee, an owner of the
    project or the creator deletes the task, and only the task; anybody
    else is answered Forbidden and nothing is deleted. *)
Lemma deleteTask_needs_a_stake w taskId userId t :
  no_fault w →
  tasks (db w) !! taskId = Some t →
  ((∃ role,
      projectMembers (db w) !! (Task.projectId t, userId) = Some role
      ∧ (userId = Task.assigneeId t ∨ role = "owner"
         ∨ Task.createdBy t = Some userId)) →
   (serve (DeleteTask taskId userId) w).1
   = Some (Response.mk 200 (Some true) (Some "Task deleted successfully") None)
   ∧ db (serve (DeleteTask taskId userId) w).2
     = set_tasks (delete taskId) (db w))
  ∧ (¬ (∃ role,
          projectMembers (db w) !! (Task.projectId t, userId) = Some role
          ∧ (userId = Task.assigneeId t ∨ role = "owner"
             ∨ Task.createdBy t = Some userId)) →
     (serve (DeleteTask taskId userId) w).1
     = Some (forbidden "You are not authorized to perform this action.")
     ∧ db (serve (DeleteTask taskId userId) w).2 = db w).
Proof.
  intros Hnf Ht.
  pose proof (authorized_iff (db w) userId (taskId, t)) as Hiff.
  unfold authorized in Hiff. cbn in Hiff.
  split; intros Hstake.
  - apply Hiff in Hstake. run_calm Hnf. rewrite Ht. run_calm Hnf.
    rewrite Hstake. run_calm Hnf. done.
  - run_calm Hnf. rewrite Ht. run_calm Hnf.
    destruct (not_authorized _ _ _) eqn:Hna; [done|].
    exfalso. by apply Hstake, Hiff.
Qed.

Lemma deleteTask_needs_a_stake_witness :
  let w := calm db_3 5000 in
  ((serve (DeleteTask 1 8) w).1
   = Some (Response.mk 200 (Some true) (Some "Task deleted successfully") None)
   ∧ db (serve (DeleteTask 1 8) w).2 = set_tasks (delete 1) (db w))
  ∧ (serve (DeleteTask 2 7) w).1
    = Some (forbidden "You are not authorized to perform this action.").
Proof.
  intros w. split.
  - apply (deleteTask_needs_a_stake w 1 8 (task_1 "todo" None)).
    + intros n. reflexivity.
    + reflexivity.
    + exists "member". split; [reflexivity|]. right. right. reflexivity.
  - apply (deleteTask_needs_a_stake w 2 7
             (Task.mk (Some "review") None None None None 10 8 (Some 9) false
                      "in-progress" (Some 1000))).
    + intros n. reflexivity.
    + reflexivity.
    + intros (role & Hrole & Hstake). vm_compute in Hrole.
      injection Hrole as <-. cbn in Hstake.
      destruct Hstake as [?|[?|?]]; discriminate.
Defined.

(** [deleteTask] on an id that names no task. *)
Lemma deleteTask_missing w taskId userId :
  no_fault w →
  tasks (db w) !! taskId = None →
  serve (DeleteTask taskId userId) w
  = (Some (not_found "Task not found"), tick_call w).
Proof. intros Hnf Ht. run_calm Hnf. by rewrite Ht. Qed.

(** X7.  No request changes who created a task, whatever the task and the
    environment; and none replaces a start date by another one: a start
    date that is set is kept or cleared. *)
Lemma start_date_is_kept_or_cleared r w k t t' :
  tasks (db w) !! k = Some t →
  tasks (db (serve r w).2) !! k = Some t' →
  Task.createdBy t' = Task.createdBy t
  ∧ ∀ started,
      Task.started_date t = Some started →
      Task.started_date t' = Some started ∨ Task.started_date t' = None.
Proof.
  intros Ht.
  destruct r; try destruct body; all_branches; intros Ht'; inv_lookup;
    simplify_eq/=; (split; [done|]); intros started Hs; simplify_eq/=; auto.
Qed.

Lemma start_date_is_kept_or_cleared_witness :
  let w := calm (db_1 "in-progress" (Some 3)) 5000 in
  let r := UpdateTask 1 9 (with_status "in-progress" (Some 8)) in
  ∃ t',
    tasks (db (serve r w).2) !! 1 = Some t'
    ∧ Task.createdBy t' = Some 8
    ∧ (Task.started_date t' = Some 3 ∨ Task.started_date t' = None).
Proof.
  eexists. split; [reflexivity|].
  destruct (start_date_is_kept_or_cleared
              (UpdateTask 1 9 (with_status "in-progress" (Some 8)))
              (calm (db_1 "in-progress" (Some 3)) 5000) 1
              (task_1 "in-progress" (Some 3)) _ eq_refl eq_refl)
    as [Hcreator Hstart].
  split; [exact Hcreator|]. apply Hstart. reflexivity.
Defined.

(** X8.  [createTask]: when the actor and the assignee are members of the
    project, and the project and the assignee exist, the task is stored
    under the next id in status [todo], with no start date and the
    exception flag down; its creator is the [createdBy] of the body, not the
    actor. *)
Lemma createTask_stores_a_todo_task w userId body :
  no_fault w →
  is_Some (projectMembers (db w) !! (CreateTaskBody.projectId body, userId)) →
  is_Some (projectMembers (db w)
             !! (CreateTaskBody.projectId body, CreateTaskBody.assigneeId body)) →
  is_Some (projects (db w) !! CreateTaskBody.projectId body) →
  is_Some (users (db w) !! CreateTaskBody.assigneeId body) →
  tasks (db w) !! nextId (db w) = None →
  ∃ w',
    serve (CreateTask userId body) w
    = (Some (Response.mk 200 (Some true) (Some "Task created successfully")
               (Some (PTask (nextId (db w), new_task body)))), w')
    ∧ db w' = set_tasks <[nextId (db w) := new_task body]> (bump_nextId (db w)).
Proof.
  intros Hnf [r1 H1] [r2 H2] [p Hp] [u Hu] Hfree. destruct body.
  cbn in *. run_calm Hnf. rewrite H1. run_calm Hnf. rewrite H2.
  run_calm Hnf. rewrite Hp. run_calm Hnf. rewrite Hu. run_calm Hnf.
  rewrite Hfree. run_calm Hnf. eexists. split; reflexivity.
Qed.

Lemma createTask_stores_a_todo_task_witness :
  let w := calm db_3 5000 in
  let body := CreateTaskBody.mk 8 10 (Some "plan") None None None None None in
  ∃ w',
    serve (CreateTask 7 body) w
    = (Some (Response.mk 200 (Some true) (Some "Task created successfully")
               (Some (PTask (30, new_task body)))), w')
    ∧ tasks (db w') !! 30 = Some (new_task body)
    ∧ Task.status (new_task body) = "todo"
    ∧ nextId (db w') = 31.
Proof.
  intros w body.
  destruct (createTask_stores_a_todo_task w 7 body) as (w' & Hrun & Hdb).
  - intros n. reflexivity.
  - by eexists.
  - by eexists.
  - by eexists.
  - by eexists.
  - reflexivity.
  - exists w'. split; [exact Hrun|]. rewrite Hdb.
    split; [reflexivity|]. split; reflexivity.
Defined.

(** X9.  Whatever the environment answers, [createTask] succeeds only for a
    member of the project who names an assignee that exists and is a member
    too, in a project that exists; otherwise it stores nothing. *)
Lemma createTask_only_among_members w userId body :
  (is_Some (projectMembers (db w) !! (CreateTaskBody.projectId body, userId))
   ∧ is_Some (projectMembers (db w)
                !! (CreateTaskBody.projectId body,
                    CreateTaskBody.assigneeId body))
   ∧ is_Some (projects (db w) !! CreateTaskBody.projectId body)
   ∧ is_Some (users (db w) !! CreateTaskBody.assigneeId body)
   ∧ tasks (db (serve (CreateTask userId body) w).2)
     = <[nextId (db w) := new_task body]> (tasks (db w)))
  ∨ (db (serve (CreateTask userId body) w).2 = db w
     ∧ ∃ resp,
         (serve (CreateTask userId body) w).1 = Some resp
         ∧ 400 ≤ Response.status resp).
Proof.
  destruct body. all_branches; cbn.
  all: try (right; split; [done|]; eexists; split; [done|]; cbn; lia).
  left. repeat split; by eexists.
Qed.

(** X10.  The plain update of [updateTask]: when the request repeats the
    assignee and either asks for a status that is not [in-progress] (or for
    none), or resumes a task that already has a start date, each of name,
    description, priority, due date, difficulty, project, exception flag
    and status is written when the request has it and kept otherwise; the
    assignee, the creator and the start date are kept.  Only the task
    changes: no completion record appears, also when the status written is
    [completed]. *)
Lemma updateTask_plain_update w taskId userId body t :
  no_fault w →
  tasks (db w) !! taskId = Some t →
  authorized (db w) userId (taskId, t) →
  Task.status t ≠ "completed" →
  UpdateTaskBody.assigneeId body = Some (Task.assigneeId t) →
  (UpdateTaskBody.status body ≠ Some "in-progress"
   ∨ (Task.status t ≠ "in-progress" ∧ is_Some (Task.started_date t))) →
  let t' :=
    Task.mk (patched (UpdateTaskBody.name body) (Task.name t))
            (patched (UpdateTaskBody.description body) (Task.description t))
            (patched (UpdateTaskBody.priority body) (Task.priority t))
            (patched (UpdateTaskBody.dueDate body) (Task.dueDate t))
            (patched (UpdateTaskBody.difficulty body) (Task.difficulty t))
            (default (Task.projectId t) (UpdateTaskBody.projectId body))
            (Task.assigneeId t)
            (Task.createdBy t)
            (default (Task.exception t) (UpdateTaskBody.exception body))
            (default (Task.status t) (UpdateTaskBody.status body))
            (Task.started_date t) in
  ∃ w',
    serve (UpdateTask taskId userId body) w
    = (Some (task_updated (taskId, t')), w')
    ∧ db w' = set_tasks <[taskId := t']> (db w).
Proof.
  intros Hnf Ht Hauth Hst Hsame Hplain. destruct body. cbn in *.
  subst assigneeId. unfold authorized in Hauth. cbn in Hauth.
  assert (Hdb : ∀ p, set_tasks (alter (Task_set p) taskId) (db w)
                     = set_tasks <[taskId := Task_set p t]> (db w)).
  { intros p. unfold set_tasks. f_equal. apply map_eq. intros i.
    destruct (decide (i = taskId)) as [->|Hne].
    - by rewrite lookup_alter_eq, lookup_insert_eq, Ht.
    - by rewrite lookup_alter_ne, lookup_insert_ne. }
  run_calm Hnf. rewrite Ht. run_calm Hnf.
  rewrite Hauth, bool_decide_eq_false_2 by done.
  rewrite (bool_decide_eq_false_2 (Task.assigneeId t ≠ Task.assigneeId t))
    by (intros Hne; by apply Hne).
  destruct Hplain as [Hreq|[Hnot [s Hs]]].
  - assert (loose_eq_lit status "in-progress" = false) as ->.
    { destruct status as [s|]; [|done]. cbn. apply bool_decide_eq_false.
      intros ->. by apply Hreq. }
    run_calm Hnf. eexists. split; [reflexivity|]. apply Hdb.
  - destruct (loose_eq_lit status "in-progress") eqn:Hlit.
    + rewrite bool_decide_eq_false_2, Hs by done. run_calm Hnf.
      rewrite Hdb. unfold Task_set. cbn. rewrite Hs.
      eexists. split; reflexivity.
    + run_calm Hnf. eexists. split; [reflexivity|]. apply Hdb.
Qed.

Lemma updateTask_plain_update_witness :
  let w := calm db_3 5000 in
  let body :=
    UpdateTaskBody.mk (Some "review again") None (Some "high") None None
                      (Some 8) None (Some true) (Some "completed") None in
  let t' := Task.mk (Some "review again") None (Some "high") None None 10 8
                    (Some 9) true "completed" (Some 1000) in
  ∃ w',
    serve (UpdateTask 2 9 body) w = (Some (task_updated (2, t')), w')
    ∧ tasks (db w') !! 2 = Some t'
    ∧ completedTasks (db w') = ∅.
Proof.
  intros w body t'.
  destruct (updateTask_plain_update w 2 9 body
              (Task.mk (Some "review") None None None None 10 8 (Some 9) false
                       "in-progress" (Some 1000)))
    as (w' & Hrun & Hdb).
  - intros n. reflexivity.
  - reflexivity.
  - reflexivity.
  - discriminate.
  - reflexivity.
  - left. discriminate.
  - exists w'. split; [exact Hrun|]. rewrite Hdb.
    split; [apply lookup_insert_eq|reflexivity].
Defined.

(** ** Listings *)

(** X11.  [getTasksProject] for a member of the project: the list holds exactly
    the tasks of the project that are not completed, each once. *)
Lemma getTasksProject_lists_open_tasks w projectId userId project :
  no_fault w →
  projects (db w) !! projectId = Some project →
  is_Some (organizations (db w) !! Project.organizationId project) →
  is_Some (projectMembers (db w) !! (projectId, userId)) →
  ∃ l,
    (serve (GetTasksProject projectId userId) w).1
    = Some (tasks_retrieved (PTasks l))
    ∧ NoDup l
    ∧ ∀ k t,
        (k, t) ∈ l
        ↔ tasks (db w) !! k = Some t
          ∧ Task.projectId t = projectId
          ∧ Task.status t ≠ "completed".
Proof.
  intros Hnf Hp [o Ho] [role Hrole].
  run_calm Hnf. rewrite Hp. run_calm Hnf. rewrite Ho. run_calm Hnf.
  rewrite Hrole. run_calm Hnf.
  eexists. split; [reflexivity|]. unfold order_by_status_desc.
  split.
  { rewrite merge_sort_Permutation. apply NoDup_filter, NoDup_map_to_list. }
  intros k t. rewrite merge_sort_Permutation, list_elem_of_filter.
  rewrite elem_of_map_to_list. cbn.
  rewrite andb_true_iff, !bool_decide_eq_true. tauto.
Qed.

Lemma getTasksProject_lists_open_tasks_witness :
  let w := calm db_3 5000 in
  ∃ l,
    (serve (GetTasksProject 10 7) w).1 = Some (tasks_retrieved (PTasks l))
    ∧ (1, task_1 "todo" None) ∈ l
    ∧ (3, task_1 "completed" None) ∉ l.
Proof.
  intros w.
  destruct (getTasksProject_lists_open_tasks w 10 7 (Project.mk 20 (Some "P")))
    as (l & Hrun & _ & Hin).
  - intros n. reflexivity.
  - reflexivity.
  - by eexists.
  - by eexists.
  - exists l. split; [exact Hrun|]. split.
    + apply Hin. split; [reflexivity|]. split; [reflexivity|discriminate].
    + intros H3. apply Hin in H3 as (_ & _ & Hst). by apply Hst.
Defined.

(** X12.  The two project listings for an actor who is not a member of the
    project: an owner of the organization is served, another member of the
    organization is answered Forbidden, and somebody who is in neither is
    answered 500, because the role of a membership that was not found is
    read. *)
Lemma project_listings_for_non_members w projectId userId project :
  no_fault w →
  projects (db w) !! projectId = Some project →
  is_Some (organizations (db w) !! Project.organizationId project) →
  projectMembers (db w) !! (projectId, userId) = None →
  let membership :=
    organizationMembers (db w) !! (Project.organizationId project, userId) in
  let answer (sent : Sent) :=
    match membership with
    | None =>
        ∃ message,
          sent = Some (Response.mk 500 (Some false) (Some message) None)
    | Some role =>
        if bool_decide (role = "owner")
        then ∃ p, sent = Some (tasks_retrieved p)
        else sent = Some (forbidden
                            "You are not authorized to perform this action.")
    end in
  answer (serve (GetTasksProject projectId userId) w).1
  ∧ answer (serve (GetCompletedTasksProject projectId userId) w).1.
Proof.
  intros Hnf Hp [o Ho] Hnone. cbn zeta.
  split.
  - run_calm Hnf. rewrite Hp. run_calm Hnf. rewrite Ho. run_calm Hnf.
    rewrite Hnone. run_calm Hnf.
    destruct (organizationMembers (db w) !! _) as [role|]; run_calm Hnf;
      [|by eexists].
    case_bool_decide.
    + rewrite bool_decide_eq_false_2 by (intros Hne; by apply Hne).
      run_calm Hnf. by eexists.
    + by rewrite bool_decide_eq_true_2.
  - run_calm Hnf. rewrite Hp. run_calm Hnf. rewrite Ho. run_calm Hnf.
    rewrite Hnone. run_calm Hnf.
    destruct (organizationMembers (db w) !! _) as [role|]; run_calm Hnf;
      [|by eexists].
    case_bool_decide.
    + rewrite bool_decide_eq_false_2 by (intros Hne; by apply Hne).
      run_calm Hnf. by eexists.
    + by rewrite bool_decide_eq_true_2.
Qed.

Lemma project_listings_for_non_members_witness :
  let w := calm db_3 5000 in
  ((∃ p, (serve (GetTasksProject 10 11) w).1 = Some (tasks_retrieved p))
   ∧ ∃ p, (serve (GetCompletedTasksProject 10 11) w).1
          = Some (tasks_retrieved p))
  ∧ ∃ message,
      (serve (GetTasksProject 10 5) w).1
      = Some (Response.mk 500 (Some false) (Some message) None).
Proof.
  intros w. split.
  - apply (project_listings_for_non_members w 10 11 (Project.mk 20 (Some "P"))).
    + intros n. reflexivity.
    + reflexivity.
    + by eexists.
    + reflexivity.
  - apply (project_listings_for_non_members w 10 5 (Project.mk 20 (Some "P"))).
    + intros n. reflexivity.
    + reflexivity.
    + by eexists.
    + reflexivity.
Defined.

(** X13.  [getTasksUser]: the actor must be a member of the project and an owner
    of the organization, both; and an organization that does not exist is
    answered 500, never NotFound, because its id is read first. *)
Lemma getTasksUser_gate w organizationId projectId userId actor :
  no_fault w →
  (organizations (db w) !! organizationId = None →
   ∃ message,
     (serve (GetTasksUser organizationId projectId userId actor) w).1
     = Some (Response.mk 500 (Some false) (Some message) None))
  ∧ (is_Some (organizations (db w) !! organizationId) →
     projectMembers (db w) !! (projectId, actor) = None →
     (serve (GetTasksUser organizationId projectId userId actor) w).1
     = Some (forbidden "You are not authorized to perform this action."))
  ∧ (is_Some (organizations (db w) !! organizationId) →
     is_Some (projectMembers (db w) !! (projectId, actor)) →
     ∀ role,
       organizationMembers (db w) !! (organizationId, actor) = Some role →
       role ≠ "owner" →
       (serve (GetTasksUser organizationId projectId userId actor) w).1
       = Some (forbidden "You are not authorized to perform this action."))
  ∧ (is_Some (organizations (db w) !! organizationId) →
     is_Some (projectMembers (db w) !! (projectId, actor)) →
     organizationMembers (db w) !! (organizationId, actor) = Some "owner" →
     is_Some (projects (db w) !! projectId) →
     is_Some (users (db w) !! userId) →
     ∃ l,
       (serve (GetTasksUser organizationId projectId userId actor) w).1
       = Some (tasks_retrieved (PTasks l))
       ∧ ∀ k t,
           (k, t) ∈ l
           ↔ tasks (db w) !! k = Some t
             ∧ Task.assigneeId t = userId ∧ Task.projectId t = projectId).
Proof.
  intros Hnf. split; [|split; [|split]].
  - intros Ho. run_calm Hnf. rewrite Ho. run_calm Hnf. by eexists.
  - intros [o Ho] Hpm. run_calm Hnf. rewrite Ho. run_calm Hnf.
    rewrite Hpm. by run_calm Hnf.
  - intros [o Ho] [r Hpm] role Hrole Hne. run_calm Hnf. rewrite Ho.
    run_calm Hnf. rewrite Hrole, Hpm. run_calm Hnf.
    by rewrite bool_decide_eq_true_2.
  - intros [o Ho] [r Hpm] Hrole [p Hp] [u Hu]. run_calm Hnf. rewrite Ho.
    run_calm Hnf. rewrite Hrole, Hpm. run_calm Hnf.
    rewrite bool_decide_eq_false_2 by (intros Hne; by apply Hne).
    rewrite Hp, Hu. run_calm Hnf.
    eexists. split; [reflexivity|]. intros k t.
    rewrite list_elem_of_filter, elem_of_map_to_list. cbn.
    rewrite andb_true_iff, !bool_decide_eq_true. tauto.
Qed.

Lemma getTasksUser_gate_witness :
  let w := calm db_3 5000 in
  (∃ l,
     (serve (GetTasksUser 20 10 7 9) w).1 = Some (tasks_retrieved (PTasks l))
     ∧ (3, task_1 "completed" None) ∈ l)
  ∧ (serve (GetTasksUser 20 10 7 8) w).1
    = Some (forbidden "You are not authorized to perform this action.").
Proof.
  intros w.
  assert (Hnf : no_fault w) by (intros n; reflexivity).
  split.
  - destruct (getTasksUser_gate w 20 10 7 9 Hnf) as (_ & _ & _ & Hlist).
    destruct Hlist as (l & Hrun & Hin).
    + by eexists.
    + by eexists.
    + reflexivity.
    + by eexists.
    + by eexists.
    + exists l. split; [exact Hrun|]. apply Hin.
      split; [reflexivity|]. split; reflexivity.
  - destruct (getTasksUser_gate w 20 10 7 8 Hnf) as (_ & _ & Hrole & _).
    apply (Hrole ltac:(by eexists) ltac:(by eexists) "member").
    + reflexivity.
    + discriminate.
Defined.

(** ** Owners and what is reserved to them *)

(** X14.  [createOrganization]: the organization is stored under the next id
    and its creator becomes a member with role [owner]. *)
Lemma createOrganization_makes_the_creator_owner w userId name description :
  no_fault w →
  organizations (db w) !! nextId (db w) = None →
  organizationMembers (db w) !! (nextId (db w), userId) = None →
  let o := Organization.mk name description in
  ∃ w',
    serve (CreateOrganization userId name description) w
    = (Some (Response.mk 200 (Some true)
               (Some "Organization created successfully")
               (Some (POrganization (nextId (db w), o)))), w')
    ∧ organizations (db w') = <[nextId (db w) := o]> (organizations (db w))
    ∧ organizationMembers (db w')
      = <[(nextId (db w), userId) := "owner"]> (organizationMembers (db w))
    ∧ is_owner (db w') (nextId (db w)) userId.
Proof.
  intros Hnf Ho Hm o. run_calm Hnf. rewrite Ho. run_calm Hnf. rewrite Hm.
  run_calm Hnf. eexists. split; [reflexivity|]. split; [reflexivity|].
  split; [reflexivity|]. apply lookup_insert_eq.
Qed.

Lemma createOrganization_makes_the_creator_owner_witness :
  let w := calm db_2 5000 in
  ∃ w',
    serve (CreateOrganization 7 (Some "Initech") None) w
    = (Some (Response.mk 200 (Some true)
               (Some "Organization created successfully")
               (Some (POrganization (6, Organization.mk (Some "Initech") None)))),
       w')
    ∧ is_owner (db w') 6 7.
Proof.
  intros w.
  destruct (createOrganization_makes_the_creator_owner w 7 (Some "Initech") None)
    as (w' & Hrun & _ & _ & Howner).
  - intros n. reflexivity.
  - reflexivity.
  - reflexivity.
  - exists w'. split; [exact Hrun|exact Howner].
Defined.

(** X15.  [createOrganization] is two writes: when the second one throws, the
    response is a failure and the organization stays, without any member. *)
Lemma createOrganization_can_leave_an_organization_without_owner
    w userId name description e :
  fault w (calls w) = None →
  fault w (S (calls w)) = Some e →
  organizations (db w) !! nextId (db w) = None →
  let r := CreateOrganization userId name description in
  (serve r w).1 = Some (Response.mk 500 (Some false) (Some e) None)
  ∧ organizations (db (serve r w).2) !! nextId (db w)
    = Some (Organization.mk name description)
  ∧ organizationMembers (db (serve r w).2) = organizationMembers (db w).
Proof.
  intros H0 H1 Ho r. unfold r. unfold_handlers. unfold_orm. cbn.
  rewrite H0, Ho. cbn. rewrite H1. cbn.
  split; [done|]. split; [apply lookup_insert_eq|done].
Qed.

Lemma createOrganization_can_leave_an_organization_without_owner_witness :
  let w := call_fails 1 db_2 5000 in
  let r := CreateOrganization 7 (Some "Initech") None in
  (serve r w).1
  = Some (Response.mk 500 (Some false) (Some "connection lost") None)
  ∧ organizations (db (serve r w).2) !! 6
    = Some (Organization.mk (Some "Initech") None)
  ∧ owners 6 (db (serve r w).2) = ∅.
Proof.
  intros w r.
  destruct (createOrganization_can_leave_an_organization_without_owner
              w 7 (Some "Initech") None "connection lost")
    as (Hsent & Horg & Hmembers).
  - reflexivity.
  - reflexivity.
  - reflexivity.
  - split; [exact Hsent|]. split; [exact Horg|].
    unfold owners. subst r. cbv zeta in Hmembers. rewrite Hmembers.
    apply map_empty_filter_2. intros k x Hk. cbn. revert k x Hk. by_rows.
Defined.

(** X16.  The five requests reserved to owners: an actor who is not an owner
    of the organization changes nothing, whatever the environment answers,
    and is answered 403 by [deleteOrganization] and [updateOrganization]
    and 401 by the three others, whether or not the organization exists. *)
Lemma owners_only w r organizationId actor :
  owner_only r = Some (organizationId, actor) →
  ¬ is_owner (db w) organizationId actor →
  db (serve r w).2 = db w
  ∧ outbox (serve r w).2 = outbox w
  ∧ (no_fault w →
     (serve r w).1
     = Some (match r with
             | DeleteOrganization _ _ | UpdateOrganization _ _ _ _ =>
                 Response.mk 403 (Some false) (Some "You are unauthorized.")
                             None
             | _ =>
                 Response.mk 401 (Some false)
                   (Some "You are unauthorized to perform this action.") None
             end)).
Proof.
  unfold is_owner. intros Hr Hno.
  destruct r; simplify_eq/=.
  all: split; [|split].
  all: try (all_branches; try done; exfalso; apply Hno; congruence).
  all: intros Hnf; run_calm Hnf;
       destruct (organizationMembers (db w) !! (organizationId, actor))
         as [found|]; cbn.
  all: try (case_bool_decide; [|exfalso; apply Hno; congruence]).
  all: reflexivity.
Qed.

Lemma owners_only_witness :
  let w := calm db_2 5000 in
  (let r := InviteUserToOrganization 20 8 "g@example.org" in
   db (serve r w).2 = db w
   ∧ outbox (serve r w).2 = outbox w
   ∧ (serve r w).1
     = Some (Response.mk 401 (Some false)
               (Some "You are unauthorized to perform this action.") None))
  ∧ (serve (DeleteOrganization 20 8) w).1
    = Some (Response.mk 403 (Some false) (Some "You are unauthorized.") None).
Proof.
  intros w.
  assert (Hnf : no_fault w) by (intros n; reflexivity).
  assert (Hno : ¬ is_owner (db w) 20 8).
  { intros Howner. vm_compute in Howner. discriminate. }
  split.
  - intros r.
    destruct (owners_only w r 20 8 eq_refl Hno) as (Hdb & Hout & Hresp).
    split; [exact Hdb|]. split; [exact Hout|]. exact (Hresp Hnf).
  - destruct (owners_only w (DeleteOrganization 20 8) 20 8 eq_refl Hno)
      as (_ & _ & Hresp).
    exact (Hresp Hnf).
Defined.

(** X17.  Who owns an organization changes only through [createOrganization],
    [deleteOrganization] and [updateOrganizationMember]: no other request
    adds or removes an owner of any organization; accepting an invitation
    gives the role [member], and [removeOrganizationMember] removes no
    owner. *)
Lemma owners_are_kept r w organizationId :
  touches_owners r = false →
  owners organizationId (db (serve r w).2) = owners organizationId (db w).
Proof.
  unfold owners. intros Hr.
  destruct r; try destruct body; simplify_eq/=; all_branches; try done.
  all: try (apply map_filter_insert_not';
            [by intros [_ ?]|intros y Hy; congruence]).
  apply map_filter_delete_not. intros y Hy [_ Hrole]. cbn in Hrole.
  congruence.
Qed.

Lemma owners_are_kept_witness :
  let w := calm db_3 5000 in
  owners 20 (db (serve (RemoveOrganizationMember 20 8 9) w).2)
  = owners 20 (db w)
  ∧ organizationMembers (db (serve (RemoveOrganizationMember 20 8 9) w).2)
      !! (20, 8) = None.
Proof.
  intros w. split; [|reflexivity].
  apply (owners_are_kept (RemoveOrganizationMember 20 8 9) w 20). reflexivity.
Defined.

(** ** Inviting *)

Lemma find_user_unique email d uid user :
  users d !! uid = Some user →
  User.email user = email →
  (∀ k u, users d !! k = Some u → User.email u = email → k = uid) →
  find_user email d = Some (uid, user).
Proof.
  intros Hk He Huniq. unfold find_user.
  destruct (filter _ _) as [|[k' u'] l] eqn:Hl.
  - assert (Hin : (uid, user) ∈ filter (λ u : Z * User.t, User.email u.2 = email)
                                  (map_to_list (users d))).
    { apply list_elem_of_filter. split; [done|]. by apply elem_of_map_to_list. }
    rewrite Hl in Hin. by apply not_elem_of_nil in Hin.
  - assert (Hin : (k', u') ∈ filter (λ u : Z * User.t, User.email u.2 = email)
                                (map_to_list (users d))).
    { rewrite Hl. apply list_elem_of_here. }
    apply list_elem_of_filter in Hin as [He' Hin]. cbn in He'.
    apply elem_of_map_to_list in Hin.
    assert (k' = uid) as -> by (by eapply Huniq).
    cbn. congruence.
Qed.

Lemma find_user_none email d :
  (∀ k u, users d !! k = Some u → User.email u ≠ email) →
  find_user email d = None.
Proof.
  intros Hno. unfold find_user.
  destruct (filter _ _) as [|[k' u'] l] eqn:Hl; [done|].
  assert (Hin : (k', u') ∈ filter (λ u : Z * User.t, User.email u.2 = email)
                              (map_to_list (users d))).
  { rewrite Hl. apply list_elem_of_here. }
  apply list_elem_of_filter in Hin as [He' Hin]. cbn in He'.
  apply elem_of_map_to_list in Hin. by apply Hno in Hin.
Qed.

Lemma find_invite_other_user secret userId d :
  (∀ k i, invites d !! k = Some i →
          Invite.secret i = secret → Invite.userId i ≠ userId) →
  find_invite secret userId d = None.
Proof.
  intros Hno. unfold find_invite.
  destruct (filter _ _) as [|[k' i'] l] eqn:Hl; [done|].
  assert (Hin : (k', i') ∈ filter (λ i : Z * Invite.t,
                    Invite.secret i.2 = secret ∧ Invite.userId i.2 = userId)
                  (map_to_list (invites d))).
  { rewrite Hl. apply list_elem_of_here. }
  apply list_elem_of_filter in Hin as [[Hs' Hu'] Hin]. cbn in Hs', Hu'.
  apply elem_of_map_to_list in Hin. by apply Hno in Hin.
Qed.

(** What an invitation by an owner leaves behind. *)
Lemma inviteUserToOrganization_run
    w organizationId actor email uid user :
  no_fault w →
  is_owner (db w) organizationId actor →
  users (db w) !! uid = Some user →
  User.email user = email →
  (∀ k u, users (db w) !! k = Some u → User.email u = email → k = uid) →
  organizationMembers (db w) !! (organizationId, uid) = None →
  invites (db w) !! nextId (db w) = None →
  let secret := uuid w (draws w) in
  let i := Invite.mk organizationId email uid secret in
  ∃ w',
    serve (InviteUserToOrganization organizationId actor email) w
    = (Some (user_invited (nextId (db w), i)), w')
    ∧ db w' = set_invites <[nextId (db w) := i]> (bump_nextId (db w))
    ∧ outbox w' = (email, invitation_text secret email) :: outbox w
    ∧ uuid w' = uuid w ∧ fault w' = fault w.
Proof.
  intros Hnf Hown Hu He Huniq Hnew Hfree secret i.
  pose proof (find_user_unique email (db w) uid user Hu He Huniq) as Hfind.
  unfold is_owner in Hown.
  run_calm_users Hnf. rewrite Hown. run_calm_users Hnf. owner_passes.
    run_calm_users Hnf. rewrite Hfind. run_calm_users Hnf.
  rewrite Hnew. run_calm_users Hnf. rewrite Hfree. run_calm_users Hnf.
  eexists. repeat split; reflexivity.
Qed.

(** X18.  [inviteUserToOrganization] by an owner, for the address of a user who
    is not a member yet: the invite is stored with the secret just drawn,
    and a mail with that secret goes to the address. *)
Lemma inviteUserToOrganization_stores_and_mails
    w organizationId actor email uid user :
  no_fault w →
  is_owner (db w) organizationId actor →
  users (db w) !! uid = Some user →
  User.email user = email →
  (∀ k u, users (db w) !! k = Some u → User.email u = email → k = uid) →
  organizationMembers (db w) !! (organizationId, uid) = None →
  invites (db w) !! nextId (db w) = None →
  let secret := uuid w (draws w) in
  let i := Invite.mk organizationId email uid secret in
  ∃ w',
    serve (InviteUserToOrganization organizationId actor email) w
    = (Some (user_invited (nextId (db w), i)), w')
    ∧ db w' = set_invites <[nextId (db w) := i]> (bump_nextId (db w))
    ∧ outbox w' = (email, invitation_text secret email) :: outbox w
    ∧ uuid w' = uuid w ∧ fault w' = fault w.
Proof.
  intros Hnf Howner Hu He Huniq Hnew Hfree.
  exact (inviteUserToOrganization_run w organizationId actor email uid
           user Hnf Howner Hu He Huniq Hnew Hfree).
Qed.

Lemma inviteUserToOrganization_stores_and_mails_witness :
  let w := calm db_3 5000 in
  let i := Invite.mk 20 "g@example.org" 7 "secret" in
  ∃ w',
    serve (InviteUserToOrganization 20 9 "g@example.org") w
    = (Some (user_invited (30, i)), w')
    ∧ invites (db w') !! 30 = Some i
    ∧ outbox w'
      = [("g@example.org", invitation_text "secret" "g@example.org")].
Proof.
  intros w i.
  destruct (inviteUserToOrganization_stores_and_mails w 20 9 "g@example.org" 7
              (User.mk (Some "G") "g@example.org"))
    as (w' & Hrun & Hdb & Hout & _).
  - intros n. reflexivity.
  - reflexivity.
  - reflexivity.
  - reflexivity.
  - by_rows.
  - reflexivity.
  - reflexivity.
  - exists w'. split; [exact Hrun|]. rewrite Hdb.
    split; [reflexivity|exact Hout].
Defined.

(** [inviteUserToOrganization] by an owner, refused: an address no user has
    is answered NotFound and the address of a member is answered 400; no
    invite is stored and no mail is sent. *)
Lemma inviteUserToOrganization_refusals w organizationId actor email :
  no_fault w →
  is_owner (db w) organizationId actor →
  let r := InviteUserToOrganization organizationId actor email in
  ((∀ k u, users (db w) !! k = Some u → User.email u ≠ email) →
   (serve r w).1
   = Some (not_found "User with this email not found in our records.")
   ∧ db (serve r w).2 = db w ∧ outbox (serve r w).2 = outbox w)
  ∧ (∀ uid user,
       users (db w) !! uid = Some user →
       User.email user = email →
       (∀ k u, users (db w) !! k = Some u → User.email u = email → k = uid) →
       is_Some (organizationMembers (db w) !! (organizationId, uid)) →
       (serve r w).1
       = Some (bad_request "User is already a member of the organization")
       ∧ db (serve r w).2 = db w ∧ outbox (serve r w).2 = outbox w).
Proof.
  intros Hnf Hown r. unfold r, is_owner in *. split.
  - intros Hno. pose proof (find_user_none email (db w) Hno) as Hfind.
    run_calm_users Hnf. rewrite Hown. run_calm_users Hnf. owner_passes.
    run_calm_users Hnf. rewrite Hfind. done.
  - intros uid user Hu He Huniq [role Hrole].
    pose proof (find_user_unique email (db w) uid user Hu He Huniq) as Hfind.
    run_calm_users Hnf. rewrite Hown. run_calm_users Hnf. owner_passes.
    run_calm_users Hnf. rewrite Hfind. run_calm_users Hnf.
    rewrite Hrole. done.
Qed.

(** X19.  An invite is redeemed by the invited user only: for anybody else the
    secret finds nothing, and accept and reject are answered NotFound
    without a write. *)
Lemma invitation_is_personal w secret userId :
  no_fault w →
  (∀ k i, invites (db w) !! k = Some i →
          Invite.secret i = secret → Invite.userId i ≠ userId) →
  serve (AcceptInvitation secret userId) w
  = (Some (not_found "Invite not found"), tick_call w)
  ∧ serve (RejectInvitation secret userId) w
    = (Some (not_found "Invite not found"), tick_call w).
Proof.
  intros Hnf Hno.
  pose proof (find_invite_other_user secret userId (db w) Hno) as Hfind.
  split; run_calm Hnf; by rewrite Hfind.
Qed.

Lemma invitation_is_personal_witness :
  let w := calm db_2 5000 in
  serve (AcceptInvitation "s-1" 8) w
  = (Some (not_found "Invite not found"), tick_call w)
  ∧ serve (RejectInvitation "s-1" 8) w
    = (Some (not_found "Invite not found"), tick_call w).
Proof.
  intros w. apply (invitation_is_personal w "s-1" 8).
  - intros n. reflexivity.
  - by_rows.
Defined.

(** X20.  Inviting and accepting compose: after an owner has invited the address
    of a user, that user accepts with the secret that was drawn and is a
    member with role [member]; the invite is gone. *)
Lemma invite_then_accept w organizationId actor email uid user :
  no_fault w →
  is_owner (db w) organizationId actor →
  users (db w) !! uid = Some user →
  User.email user = email →
  (∀ k u, users (db w) !! k = Some u → User.email u = email → k = uid) →
  organizationMembers (db w) !! (organizationId, uid) = None →
  invites (db w) !! nextId (db w) = None →
  no_invite (uuid w (draws w)) (db w) →
  let secret := uuid w (draws w) in
  let w1 := (serve (InviteUserToOrganization organizationId actor email) w).2 in
  let w2 := (serve (AcceptInvitation secret uid) w1).2 in
  (serve (AcceptInvitation secret uid) w1).1
  = Some (invite_accepted (Member.mk organizationId uid "member"))
  ∧ organizationMembers (db w2)
    = <[(organizationId, uid) := "member"]> (organizationMembers (db w))
  ∧ invites (db w2) = invites (db w).
Proof.
  intros Hnf Hown Hu He Huniq Hnew Hfree Hfresh secret w1 w2.
  destruct (inviteUserToOrganization_run
              w organizationId actor email uid user)
    as (w' & Hrun & Hdb & _ & _ & Hfault); try done.
  assert (w1 = w') as Hw1 by (unfold w1; by rewrite Hrun).
  assert (Hnf1 : no_fault w1).
  { intros n. rewrite Hw1, Hfault. apply Hnf. }
  assert (Hfind : find_invite secret uid (db w1)
                  = Some (nextId (db w),
                          Invite.mk organizationId email uid secret)).
  { apply find_invite_unique; try done.
    - rewrite Hw1, Hdb. cbn. apply lookup_insert_eq.
    - intros k' i'. rewrite Hw1, Hdb. cbn. rewrite lookup_insert_Some.
      intros [[? _]|[_ Hk']] Hs; [done|]. by apply Hfresh in Hk'. }
  assert (Hnew1 : organizationMembers (db w1) !! (organizationId, uid) = None)
    by (by rewrite Hw1, Hdb).
  unfold w2. clearbody w1. run_calm Hnf1. rewrite Hfind. run_calm Hnf1.
  rewrite Hnew1. run_calm Hnf1. split; [done|]. rewrite Hw1, Hdb. cbn.
  split; [done|]. apply delete_insert_id. done.
Qed.

Lemma invite_then_accept_witness :
  let w := calm db_3 5000 in
  let w1 := (serve (InviteUserToOrganization 20 9 "g@example.org") w).2 in
  let w2 := (serve (AcceptInvitation "secret" 7) w1).2 in
  (serve (AcceptInvitation "secret" 7) w1).1
  = Some (invite_accepted (Member.mk 20 7 "member"))
  ∧ organizationMembers (db w2)
    = <[(20, 7) := "member"]> (organizationMembers (db w))
  ∧ invites (db w2) = invites (db w).
Proof.
  intros w.
  apply (invite_then_accept w 20 9 "g@example.org" 7
           (User.mk (Some "G") "g@example.org")).
  - intros n. reflexivity.
  - reflexivity.
  - reflexivity.
  - reflexivity.
  - by_rows.
  - reflexivity.
  - reflexivity.
  - unfold no_invite. by_rows.
Defined.

(** ** Removing members and changing organizations *)

Lemma length_owner_rows (organizationId : Z) (m : gmap (Z * Z) string) :
  length (filter (λ m : Member.t,
                    bool_decide (Member.scopeId m = organizationId)
                    && bool_decide (Member.role m = "owner") = true)
                 (member_of_row <$> map_to_list m))
  = size (filter (λ m : Z * Z * string,
                    m.1.1 = organizationId ∧ m.2 = "owner") m).
Proof.
  rewrite map_filter_alt.
  rewrite <- length_map_to_list.
  rewrite map_to_list_to_map.
  2: { eapply NoDup_fmap_fst.
       - intros k x y Hx Hy.
         apply list_elem_of_filter in Hx as [_ Hx].
         apply list_elem_of_filter in Hy as [_ Hy].
         apply elem_of_map_to_list in Hx, Hy. congruence.
       - apply NoDup_filter, NoDup_map_to_list. }
  induction (map_to_list m) as [|[[o u] role] l IH]; [done|].
  rewrite fmap_cons, !filter_cons.
  destruct (decide (o = organizationId ∧ role = "owner")) as [Hp|Hp].
  - rewrite !decide_True; [cbn; by rewrite IH|done|].
    cbn. by rewrite andb_true_iff, !bool_decide_eq_true.
  - rewrite !decide_False; [done|done|].
    cbn. by rewrite andb_true_iff, !bool_decide_eq_true.
Qed.

(** X21.  [removeOrganizationMember] by an owner, on a member who is not an
    owner: the member is removed, unless the organization has exactly one
    owner; then the request is refused as if the last owner were to be
    removed, and the member stays.  A target who is an owner is never
    removed. *)
Lemma removeOrganizationMember_by_an_owner w organizationId userId actor role :
  no_fault w →
  is_owner (db w) organizationId actor →
  organizationMembers (db w) !! (organizationId, userId) = Some role →
  let r := RemoveOrganizationMember organizationId userId actor in
  (role = "owner" →
   (serve r w).1
   = Some (bad_request "You cannot remove an owner of the organization.")
   ∧ db (serve r w).2 = db w)
  ∧ (role ≠ "owner" →
     size (owners organizationId (db w)) = 1%nat →
     (serve r w).1
     = Some (bad_request
               "You cannot remove the last owner of the organization.")
     ∧ db (serve r w).2 = db w)
  ∧ (role ≠ "owner" →
     size (owners organizationId (db w)) ≠ 1%nat →
     (serve r w).1
     = Some (Response.mk 200 (Some true)
               (Some "User removed from the organization successfully.") None)
     ∧ db (serve r w).2
       = set_organizationMembers (delete (organizationId, userId)) (db w)).
Proof.
  intros Hnf Hown Hrole r. unfold r, is_owner, owners in *.
  pose proof (length_owner_rows organizationId (organizationMembers (db w)))
    as Hlen.
  split; [|split].
  - intros ->. run_calm Hnf. rewrite Hown. run_calm Hnf. owner_passes.
    run_calm Hnf. rewrite Hrole. done.
  - intros Hne Hone. run_calm Hnf. rewrite Hown. run_calm Hnf. owner_passes.
    run_calm Hnf. rewrite Hrole. run_calm Hnf.
    rewrite bool_decide_eq_false_2 by done. run_calm Hnf.
    rewrite Hlen, Hone. done.
  - intros Hne Hmore. run_calm Hnf. rewrite Hown. run_calm Hnf. owner_passes.
    run_calm Hnf. rewrite Hrole. run_calm Hnf.
    rewrite bool_decide_eq_false_2 by done. run_calm Hnf.
    rewrite Hlen, bool_decide_eq_false_2 by done. run_calm Hnf. done.
Qed.

Lemma removeOrganizationMember_by_an_owner_witness :
  (let w := calm db_2 5000 in
   let r := RemoveOrganizationMember 20 8 9 in
   (serve r w).1
   = Some (bad_request "You cannot remove the last owner of the organization.")
   ∧ db (serve r w).2 = db w)
  ∧ (let w := calm db_3 5000 in
     let r := RemoveOrganizationMember 20 8 9 in
     (serve r w).1
     = Some (Response.mk 200 (Some true)
               (Some "User removed from the organization successfully.") None)
     ∧ db (serve r w).2 = set_organizationMembers (delete (20, 8)) (db w)).
Proof.
  split.
  - intros w r.
    destruct (removeOrganizationMember_by_an_owner w 20 8 9 "member")
      as (_ & Hlast & _).
    + intros n. reflexivity.
    + reflexivity.
    + reflexivity.
    + apply Hlast; [discriminate|reflexivity].
  - intros w r.
    destruct (removeOrganizationMember_by_an_owner w 20 8 9 "member")
      as (_ & _ & Hremoved).
    + intros n. reflexivity.
    + reflexivity.
    + reflexivity.
    + apply Hremoved; [discriminate|]. vm_compute. discriminate.
Defined.

(** [updateOrganizationMember] by an owner writes the role it is given as
    it is, whatever the string and whoever the member, and sends no
    response; a request without a role writes nothing new. *)
Lemma updateOrganizationMember_writes_any_role
    w organizationId userId actor role old :
  no_fault w →
  is_owner (db w) organizationId actor →
  organizationMembers (db w) !! (organizationId, userId) = Some old →
  let r := UpdateOrganizationMember organizationId userId role actor in
  (serve r w).1 = None
  ∧ db (serve r w).2
    = set_organizationMembers
        <[(organizationId, userId) := default old role]> (db w).
Proof.
  intros Hnf Hown Hold r. unfold r, is_owner in *.
  run_calm Hnf. rewrite Hown. run_calm Hnf. owner_passes.
  run_calm Hnf. rewrite Hold. run_calm Hnf. split; [done|].
  unfold set_organizationMembers. f_equal. apply map_eq. intros i.
  destruct (decide (i = (organizationId, userId))) as [->|Hne].
  - by rewrite lookup_alter_eq, lookup_insert_eq, Hold.
  - by rewrite lookup_alter_ne, lookup_insert_ne.
Qed.

(** [updateOrganization] and [deleteOrganization] by an owner of an
    organization that exists: the update writes the fields the request
    has and keeps the others; the deletion removes the organization. *)
Lemma owner_updates_and_deletes w organizationId actor o name description :
  no_fault w →
  is_owner (db w) organizationId actor →
  organizations (db w) !! organizationId = Some o →
  let o' := Organization.mk (patched name (Organization.name o))
              (patched description (Organization.description o)) in
  (serve (UpdateOrganization organizationId actor name description) w).1
  = Some (Response.mk 200 (Some true) (Some "Organization updated successfully")
            (Some (POrganization (organizationId, o'))))
  ∧ organizations
      (db (serve (UpdateOrganization organizationId actor name description) w).2)
    = <[organizationId := o']> (organizations (db w))
  ∧ organizations (db (serve (DeleteOrganization organizationId actor) w).2)
    = delete organizationId (organizations (db w)).
Proof.
  intros Hnf Hown Ho o'. unfold is_owner in *.
  split; [|split].
  - run_calm Hnf. rewrite Hown. run_calm Hnf. owner_passes. run_calm Hnf.
    rewrite Ho. run_calm Hnf. done.
  - run_calm Hnf. rewrite Hown. run_calm Hnf. owner_passes. run_calm Hnf.
    rewrite Ho. run_calm Hnf. apply map_eq. intros i.
    destruct (decide (i = organizationId)) as [->|Hne].
    + by rewrite lookup_alter_eq, lookup_insert_eq, Ho.
    + by rewrite lookup_alter_ne, lookup_insert_ne.
  - run_calm Hnf. rewrite Hown. run_calm Hnf. owner_passes. run_calm Hnf.
    rewrite Ho. run_calm Hnf. done.
Qed.

(** ** Sign-up and login *)

(** The first row of a table that satisfies a test: when one row only
    satisfies it, that row is found; nothing is found exactly when no row
    satisfies it. *)
Lemma find_first_unique `{Countable K} {A} (P : K * A → Prop)
    `{∀ x, Decision (P x)} (m : gmap K A) k a :
  m !! k = Some a →
  P (k, a) →
  (∀ k' a', m !! k' = Some a' → P (k', a') → k' = k) →
  head (filter P (map_to_list m)) = Some (k, a).
Proof.
  intros Hk HP Huniq.
  destruct (filter P (map_to_list m)) as [|[k' a'] l] eqn:Hl.
  - assert (Hin : (k, a) ∈ filter P (map_to_list m)).
    { apply list_elem_of_filter. split; [done|]. by apply elem_of_map_to_list. }
    rewrite Hl in Hin. by apply not_elem_of_nil in Hin.
  - assert (Hin : (k', a') ∈ filter P (map_to_list m)).
    { rewrite Hl. apply list_elem_of_here. }
    apply list_elem_of_filter in Hin as [HP' Hin].
    apply elem_of_map_to_list in Hin.
    assert (k' = k) as -> by (by eapply Huniq).
    cbn. congruence.
Qed.

Lemma find_first_None `{Countable K} {A} (P : K * A → Prop)
    `{∀ x, Decision (P x)} (m : gmap K A) :
  head (filter P (map_to_list m)) = None
  ↔ ∀ k a, m !! k = Some a → ¬ P (k, a).
Proof.
  split.
  - intros Hnone k a Hk HP.
    assert (Hin : (k, a) ∈ filter P (map_to_list m)).
    { apply list_elem_of_filter. split; [done|]. by apply elem_of_map_to_list. }
    destruct (filter P (map_to_list m)); [|done].
    by apply not_elem_of_nil in Hin.
  - intros Hno.
    destruct (filter P (map_to_list m)) as [|[k' a'] l] eqn:Hl; [done|].
    assert (Hin : (k', a') ∈ filter P (map_to_list m)).
    { rewrite Hl. apply list_elem_of_here. }
    apply list_elem_of_filter in Hin as [HP' Hin].
    apply elem_of_map_to_list in Hin. by apply Hno in Hin.
Qed.

Section session_controller_properties.

Context (hashSync : string → Z → string)
        (compareSync : string → string → bool)
        (signJWT : Claims → string → string)
        (candidate_status : string).

(** What the three handlers leave behind when they succeed. *)
Lemma signUpCandidate_run s email :
  no_fault (world s) →
  find_user email (db (world s)) = None →
  find_candidate email (accounts s) = None →
  userCandidates (accounts s) !! nextId (db (world s)) = None →
  let s' := (answer (signUpCandidate candidate_status email) s).2 in
  let c := UserCandidate.mk email (uuid (world s) (draws (world s)))
             candidate_status in
  db (world s') = bump_nextId (db (world s))
  ∧ accounts s'
    = mkAccounts (<[nextId (db (world s)) := c]> (userCandidates (accounts s)))
                 (passwords (accounts s))
  ∧ fault (world s') = fault (world s).
Proof.
  intros Hnf Huser Hcand Hfree. cbn zeta.
  run_auth Hnf. rewrite Huser. run_auth Hnf. rewrite Hcand. run_auth Hnf.
  rewrite Hfree. run_auth Hnf. done.
Qed.

Lemma signUp_run s body k c :
  no_fault (world s) →
  find_candidate (SignUpBody.email body) (accounts s) = Some (k, c) →
  UserCandidate.status c = "pending" →
  UserCandidate.secret c = SignUpBody.secret body →
  find_user (SignUpBody.email body) (db (world s)) = None →
  users (db (world s)) !! nextId (db (world s)) = None →
  let n := nextId (db (world s)) in
  let u := User.mk (SignUpBody.name body) (SignUpBody.email body) in
  ∃ s',
    answer (signUp hashSync body) s
    = (Some (mkReply [] 201
               (BEnvelope true "User is successfully created." None)), s')
    ∧ db (world s') = set_users <[n := u]> (bump_nextId (db (world s)))
    ∧ accounts s'
      = mkAccounts (userCandidates (accounts s))
          (<[n := hashSync (SignUpBody.password body) 8]>
             (passwords (accounts s)))
    ∧ fault (world s') = fault (world s).
Proof.
  intros Hnf Hc Hst Hsec Hnew Hfree n u. unfold n, u.
  run_auth Hnf. rewrite Hc. run_auth Hnf.
  rewrite Hst, Hsec.
  rewrite !bool_decide_eq_false_2 by (intros Hne; by apply Hne).
  run_auth Hnf. rewrite Hnew, Hfree. run_auth Hnf.
  eexists. repeat split; reflexivity.
Qed.

Lemma createSession_run s body uid user stored :
  no_fault (world s) →
  find_user (LoginBody.email body) (db (world s)) = Some (uid, user) →
  passwords (accounts s) !! uid = Some stored →
  compareSync (LoginBody.password body) stored = true →
  sessions (db (world s)) !! nextId (db (world s)) = None →
  let n := nextId (db (world s)) in
  let access :=
    signJWT (AccessClaims uid (User.email user) (User.name user) n) "4h" in
  let refresh := signJWT (RefreshClaims n) "1y" in
  ∃ s',
    answer (createSession compareSync signJWT body) s
    = (Some (mkReply
               [mkCookie "accessToken" access 900000 true;
                mkCookie "refreshToken" refresh 3600000 true]
               200 (BSession (n, Session.mk uid true))), s')
    ∧ sessions (db (world s'))
      = <[n := Session.mk uid true]> (sessions (db (world s)))
    ∧ accounts s' = accounts s.
Proof.
  intros Hnf Hu Hp Hok Hfree n access refresh. unfold access, refresh, n.
  run_auth Hnf. rewrite Hu. run_auth Hnf. rewrite Hp. run_auth Hnf.
  rewrite Hok, bool_decide_eq_false_2 by done. run_auth Hnf.
  rewrite Hfree. run_auth Hnf.
  eexists. repeat split; reflexivity.
Qed.

(** X25.  [signUp] creates the user when the candidate of the address is pending
    and the secret is the candidate's: the password stored is the hash,
    and the candidate is left in place, still pending. *)
Lemma signUp_creates_the_user s body k c :
  no_fault (world s) →
  find_candidate (SignUpBody.email body) (accounts s) = Some (k, c) →
  UserCandidate.status c = "pending" →
  UserCandidate.secret c = SignUpBody.secret body →
  find_user (SignUpBody.email body) (db (world s)) = None →
  users (db (world s)) !! nextId (db (world s)) = None →
  let n := nextId (db (world s)) in
  ∃ s',
    answer (signUp hashSync body) s
    = (Some (mkReply [] 201
               (BEnvelope true "User is successfully created." None)), s')
    ∧ users (db (world s'))
      = <[n := User.mk (SignUpBody.name body) (SignUpBody.email body)]>
          (users (db (world s)))
    ∧ passwords (accounts s')
      = <[n := hashSync (SignUpBody.password body) 8]> (passwords (accounts s))
    ∧ userCandidates (accounts s') = userCandidates (accounts s).
Proof.
  intros Hnf Hc Hst Hsec Hnew Hfree n. unfold n.
  destruct (signUp_run s body k c Hnf Hc Hst Hsec Hnew Hfree)
    as (s' & Hrun & Hdb & Hacc & _).
  exists s'. split; [exact Hrun|]. rewrite Hdb, Hacc. done.
Qed.

(** X26.  [signUp] writes nothing unless the address has a pending candidate
    with the secret of the request, and it then answers 401 with one
    message: the second test of the secret can never fire, so every 401
    carries the message of the first test. *)
Lemma signUp_gate s body :
  (match find_candidate (SignUpBody.email body) (accounts s) with
   | None => True
   | Some c =>
       UserCandidate.status c.2 ≠ "pending"
       ∨ UserCandidate.secret c.2 ≠ SignUpBody.secret body
   end →
   db (world (answer (signUp hashSync body) s).2) = db (world s)
   ∧ accounts (answer (signUp hashSync body) s).2 = accounts s
   ∧ (fault (world s) (calls (world s)) = None →
      (answer (signUp hashSync body) s).1
      = Some (mkReply [] 401
                (BEnvelope false "Invalid email or secret" None))))
  ∧ ∀ r,
      (answer (signUp hashSync body) s).1 = Some r →
      reply_status r = 401 →
      reply_body r = BEnvelope false "Invalid email or secret" None.
Proof.
  split.
  - intros Hbad. unfold_auth. cbn -[find_user find_candidate].
    destruct (fault (world s) (calls (world s))) as [e|]; cbn; [done|].
    destruct (find_candidate _ _) as [c|]; cbn; [|done].
    destruct Hbad as [Hbad|Hbad].
    + by rewrite (bool_decide_eq_true_2 _ Hbad).
    + rewrite (bool_decide_eq_true_2 _ Hbad), orb_true_r. done.
  - intros r. auth_branches; intros; simplify_eq/=; try done.
    match goal with
    | H : _ || true = false |- _ => by rewrite orb_true_r in H
    end.
Qed.

(** X27.  [signUpCandidate] for an address no user has: the candidate found for
    the address, if any, is destroyed, a new one is stored with the secret
    just drawn, and the mail with that secret goes to the address.  For the
    address of a user it answers 401 and does nothing. *)
Lemma signUpCandidate_replaces_the_candidate s email :
  no_fault (world s) →
  let n := nextId (db (world s)) in
  let s' := (answer (signUpCandidate candidate_status email) s).2 in
  (find_user email (db (world s)) = None →
   userCandidates (accounts s) !! n = None →
   let c := UserCandidate.mk email (uuid (world s) (draws (world s)))
              candidate_status in
   (answer (signUpCandidate candidate_status email) s).1
   = Some (mkReply [] 201
             (BEnvelope true
                "Please check your email to continue sign up process."
                (Some (n, c))))
   ∧ userCandidates (accounts s')
     = <[n := c]>
         (match find_candidate email (accounts s) with
          | Some old => delete old.1 (userCandidates (accounts s))
          | None => userCandidates (accounts s)
          end)
   ∧ passwords (accounts s') = passwords (accounts s)
   ∧ users (db (world s')) = users (db (world s))
   ∧ outbox (world s')
     = (email, registration_text (UserCandidate.secret c) email)
         :: outbox (world s))
  ∧ (is_Some (find_user email (db (world s))) →
     (answer (signUpCandidate candidate_status email) s).1
     = Some (mkReply [] 401
               (BEnvelope false "User with this email already exists." None))
     ∧ db (world s') = db (world s)
     ∧ accounts s' = accounts s
     ∧ outbox (world s') = outbox (world s)).
Proof.
  intros Hnf n s'. unfold s', n. split.
  - intros Huser Hfree. cbn zeta.
    run_auth Hnf. rewrite Huser. run_auth Hnf.
    destruct (find_candidate email (accounts s)) as [old|]; run_auth Hnf.
    + rewrite (proj2 (lookup_delete_None _ _ _)) by (by right).
      run_auth Hnf. done.
    + rewrite Hfree. run_auth Hnf. done.
  - intros [u Hu]. run_auth Hnf. rewrite Hu. done.
Qed.

(** X28.  [createSession] for a known address and a password that
    [compareSync] accepts: a valid session of the user is stored, the two
    tokens are set as cookies that last 900000 ms and 3600000 ms, and the
    session row itself is sent, not an envelope. *)
Lemma createSession_logs_in s body uid user stored :
  no_fault (world s) →
  find_user (LoginBody.email body) (db (world s)) = Some (uid, user) →
  passwords (accounts s) !! uid = Some stored →
  compareSync (LoginBody.password body) stored = true →
  sessions (db (world s)) !! nextId (db (world s)) = None →
  let n := nextId (db (world s)) in
  let access :=
    signJWT (AccessClaims uid (User.email user) (User.name user) n) "4h" in
  let refresh := signJWT (RefreshClaims n) "1y" in
  ∃ s',
    answer (createSession compareSync signJWT body) s
    = (Some (mkReply
               [mkCookie "accessToken" access 900000 true;
                mkCookie "refreshToken" refresh 3600000 true]
               200 (BSession (n, Session.mk uid true))), s')
    ∧ sessions (db (world s'))
      = <[n := Session.mk uid true]> (sessions (db (world s)))
    ∧ accounts s' = accounts s.
Proof.
  intros Hnf Hu Hp Hok Hfree.
  exact (createSession_run s body uid user stored Hnf Hu Hp Hok Hfree).
Qed.

(** X29.  [createSession] with an address no user has, or a password that
    [compareSync] rejects: 401, no session and no cookie.  And because the
    handler has no [try], either of its two datastore calls that throws
    leaves the request without any response, and without a session or a
    cookie: [User.findOne], or [Session.create] after the password has
    been accepted. *)
Lemma createSession_refusals s body :
  let run := answer (createSession compareSync signJWT body) s in
  (no_fault (world s) →
   match find_user (LoginBody.email body) (db (world s)) with
   | None => True
   | Some user =>
       ∃ stored,
         passwords (accounts s) !! user.1 = Some stored
         ∧ compareSync (LoginBody.password body) stored = false
   end →
   run.1 = Some (mkReply [] 401
                   (BEnvelope false "Invalid email or password" None))
   ∧ db (world run.2) = db (world s)
   ∧ jar run.2 = [])
  ∧ (is_Some (fault (world s) (calls (world s))) →
     run.1 = None ∧ db (world run.2) = db (world s) ∧ jar run.2 = [])
  ∧ (∀ user stored,
       fault (world s) (calls (world s)) = None →
       find_user (LoginBody.email body) (db (world s)) = Some user →
       passwords (accounts s) !! user.1 = Some stored →
       compareSync (LoginBody.password body) stored = true →
       is_Some (fault (world s) (S (calls (world s))))
       ∨ is_Some (sessions (db (world s)) !! nextId (db (world s))) →
       run.1 = None ∧ db (world run.2) = db (world s) ∧ jar run.2 = []).
Proof.
  intros run. unfold run. split; [|split].
  - intros Hnf Hbad. run_auth Hnf.
    destruct (find_user _ _) as [user|]; run_auth Hnf; [|done].
    destruct Hbad as (stored & -> & Hno). run_auth Hnf.
    by rewrite Hno, bool_decide_eq_true_2.
  - intros [e He]. unfold_auth. cbn -[find_user find_candidate].
    rewrite He. done.
  - intros user stored Hfirst Hu Hp Hok Hthrows.
    unfold_auth. cbn -[find_user find_candidate].
    rewrite Hfirst. cbn -[find_user find_candidate].
    rewrite Hu. cbn -[find_user find_candidate].
    rewrite Hp. cbn -[find_user find_candidate].
    rewrite Hok, bool_decide_eq_false_2 by done.
    cbn -[find_user find_candidate].
    destruct Hthrows as [[e He]|[old Hold]].
    + rewrite He. done.
    + rewrite Hold. by destruct (fault (world s) (S (calls (world s)))).
Qed.

(** X30.  Sign-up and login compose, when a new candidate is pending and
    [compareSync] accepts a password against its own hash: for an address
    that is new to the site, [signUpCandidate], then [signUp] with the
    secret that was mailed, then [createSession] with the same password
    leave a user with that address and open a valid session of theirs. *)
Lemma sign_up_then_log_in s name email password :
  candidate_status = "pending" →
  (∀ p, compareSync p (hashSync p 8) = true) →
  no_fault (world s) →
  find_user email (db (world s)) = None →
  find_candidate email (accounts s) = None →
  let n := nextId (db (world s)) in
  userCandidates (accounts s) !! n = None →
  users (db (world s)) !! (n + 1) = None →
  sessions (db (world s)) !! (n + 1 + 1) = None →
  let secret := uuid (world s) (draws (world s)) in
  let s1 := (answer (signUpCandidate candidate_status email) s).2 in
  let s2 := (answer (signUp hashSync
                       (SignUpBody.mk name email password secret)) s1).2 in
  let s3 := answer (createSession compareSync signJWT
                      (LoginBody.mk email password)) s2 in
  users (db (world s2)) !! (n + 1) = Some (User.mk name email)
  ∧ ∃ cookies,
      s3.1 = Some (mkReply cookies 200
                     (BSession (n + 1 + 1, Session.mk (n + 1) true)))
      ∧ sessions (db (world s3.2)) !! (n + 1 + 1)
        = Some (Session.mk (n + 1) true).
Proof.
  intros Hpending Hbcrypt Hnf Huser Hcand n Hc Hu Hs secret s1 s2 s3.
  destruct (signUpCandidate_run s email Hnf Huser Hcand Hc)
    as (Hdb1 & Hacc1 & Hf1).
  fold s1 in Hdb1, Hacc1, Hf1. fold n secret in Hacc1.
  assert (Hnf1 : no_fault (world s1)) by (intros i; rewrite Hf1; apply Hnf).
  pose proof (proj1 (find_first_None _ _) Hcand) as Hnocand.
  pose proof (proj1 (find_first_None _ _) Huser) as Hnouser.
  assert (Hfind1 : find_candidate email (accounts s1)
                   = Some (n, UserCandidate.mk email secret candidate_status)).
  { unfold find_candidate. rewrite Hacc1. cbn.
    apply find_first_unique; [apply lookup_insert_eq|done|].
    intros k' c'. rewrite lookup_insert_Some.
    intros [[? _]|[_ Hk']] He; [done|]. by apply Hnocand in Hk'. }
  destruct (signUp_run s1 (SignUpBody.mk name email password secret) n
              (UserCandidate.mk email secret candidate_status))
    as (s2' & Hrun2 & Hdb2 & Hacc2 & Hf2); try done.
  { cbn. unfold find_user. by rewrite Hdb1. }
  { by rewrite Hdb1. }
  assert (s2 = s2') as Hs2 by (unfold s2; by rewrite Hrun2).
  rewrite <- Hs2 in Hdb2, Hacc2, Hf2. cbn in Hdb2, Hacc2.
  rewrite Hdb1 in Hdb2. cbn in Hdb2. fold n in Hdb2.
  assert (Hnf2 : no_fault (world s2)) by (intros i; rewrite Hf2; apply Hnf1).
  split.
  { rewrite Hdb2. cbn. apply lookup_insert_eq. }
  assert (Hfind2 : find_user email (db (world s2))
                   = Some (n + 1, User.mk name email)).
  { unfold find_user. rewrite Hdb2. cbn.
    apply find_first_unique; [apply lookup_insert_eq|done|].
    intros k' u'. rewrite lookup_insert_Some.
    intros [[? _]|[_ Hk']] He; [done|]. by apply Hnouser in Hk'. }
  assert (Hpass : passwords (accounts s2) !! (n + 1)
                  = Some (hashSync password 8)).
  { rewrite Hacc2, Hdb1. cbn. apply lookup_insert_eq. }
  assert (Hfree : sessions (db (world s2)) !! nextId (db (world s2)) = None).
  { rewrite Hdb2. cbn. done. }
  destruct (createSession_run s2 (LoginBody.mk email password) (n + 1)
              (User.mk name email) (hashSync password 8)
              Hnf2 Hfind2 Hpass (Hbcrypt password) Hfree)
    as (s3' & Hrun3 & Hses & _).
  unfold s3. rewrite Hrun3. cbn. eexists. split.
  - rewrite Hdb2. cbn. reflexivity.
  - rewrite Hses, Hdb2. cbn. apply lookup_insert_eq.
Qed.

End session_controller_properties.

Lemma signUp_creates_the_user_witness :
  let s := site_1 (calm db_3 5000) in
  let body := SignUpBody.mk (Some "N") "n@example.org" "pw-2" "s-9" in
  ∃ s',
    answer (signUp hash_1 body) s
    = (Some (mkReply [] 201
               (BEnvelope true "User is successfully created." None)), s')
    ∧ users (db (world s')) !! 30 = Some (User.mk (Some "N") "n@example.org")
    ∧ passwords (accounts s') !! 30 = Some "hash:pw-2"
    ∧ userCandidates (accounts s') = userCandidates (accounts s).
Proof.
  intros s body.
  destruct (signUp_creates_the_user hash_1 s body 2
              (UserCandidate.mk "n@example.org" "s-9" "pending"))
    as (s' & Hrun & Husers & Hpass & Hcand).
  - intros n. reflexivity.
  - reflexivity.
  - reflexivity.
  - reflexivity.
  - reflexivity.
  - reflexivity.
  - exists s'. split; [exact Hrun|]. rewrite Husers, Hpass.
    split; [apply lookup_insert_eq|]. split; [apply lookup_insert_eq|].
    exact Hcand.
Defined.

Lemma signUp_gate_witness :
  let s := site_1 (calm db_3 5000) in
  let body := SignUpBody.mk (Some "N") "n@example.org" "pw-2" "guess" in
  (answer (signUp hash_1 body) s).1
  = Some (mkReply [] 401 (BEnvelope false "Invalid email or secret" None))
  ∧ db (world (answer (signUp hash_1 body) s).2) = db (world s)
  ∧ accounts (answer (signUp hash_1 body) s).2 = accounts s.
Proof.
  intros s body.
  destruct (signUp_gate hash_1 s body) as [Hgate _].
  destruct Hgate as (Hdb & Hacc & Hsent).
  - right. discriminate.
  - split; [apply Hsent; reflexivity|]. split; [exact Hdb|exact Hacc].
Defined.

Lemma signUpCandidate_replaces_the_candidate_witness :
  let s := site_1 (calm db_3 5000) in
  let s' := (answer (signUpCandidate "pending" "n@example.org") s).2 in
  userCandidates (accounts s')
  = {[ 30 := UserCandidate.mk "n@example.org" "secret" "pending" ]}
  ∧ outbox (world s')
    = [("n@example.org", registration_text "secret" "n@example.org")]
  ∧ (answer (signUpCandidate "pending" "o@example.org") s).1
    = Some (mkReply [] 401
              (BEnvelope false "User with this email already exists." None)).
Proof.
  intros s s'.
  destruct (signUpCandidate_replaces_the_candidate "pending" s "n@example.org")
    as [Hnew _]; [intros n; reflexivity|].
  destruct (signUpCandidate_replaces_the_candidate "pending" s "o@example.org")
    as [_ Hold]; [intros n; reflexivity|].
  destruct Hnew as (_ & Hcand & _ & _ & Hmail); [reflexivity|reflexivity|].
  destruct Hold as (Hsent & _); [by eexists|].
  split; [|split; [exact Hmail|exact Hsent]].
  unfold s'. rewrite Hcand. reflexivity.
Defined.

Lemma createSession_logs_in_witness :
  let s := site_1 (calm db_3 5000) in
  ∃ s',
    answer (createSession compare_1 sign_1 (LoginBody.mk "o@example.org" "pw")) s
    = (Some (mkReply [mkCookie "accessToken" "access-4h" 900000 true;
                      mkCookie "refreshToken" "refresh-1y" 3600000 true]
               200 (BSession (30, Session.mk 9 true))), s')
    ∧ sessions (db (world s')) !! 30 = Some (Session.mk 9 true).
Proof.
  intros s.
  destruct (createSession_logs_in compare_1 sign_1 s
              (LoginBody.mk "o@example.org" "pw") 9
              (User.mk (Some "O") "o@example.org") "hash:pw")
    as (s' & Hrun & Hses & _).
  - intros n. reflexivity.
  - reflexivity.
  - reflexivity.
  - reflexivity.
  - reflexivity.
  - exists s'. split; [exact Hrun|]. rewrite Hses. apply lookup_insert_eq.
Defined.

Lemma createSession_refusals_witness :
  (let s := site_1 (calm db_3 5000) in
   (answer (createSession compare_1 sign_1
              (LoginBody.mk "o@example.org" "guess")) s).1
   = Some (mkReply [] 401 (BEnvelope false "Invalid email or password" None)))
  ∧ (let s := site_1 (call_fails 0 db_3 5000) in
     (answer (createSession compare_1 sign_1
                (LoginBody.mk "o@example.org" "pw")) s).1 = None)
  ∧ (let s := site_1 (call_fails 1 db_3 5000) in
     let run := answer (createSession compare_1 sign_1
                          (LoginBody.mk "o@example.org" "pw")) s in
     run.1 = None ∧ db (world run.2) = db (world s) ∧ jar run.2 = []).
Proof.
  split; [|split].
  - intros s.
    destruct (createSession_refusals compare_1 sign_1 s
                (LoginBody.mk "o@example.org" "guess")) as [Hbad _].
    apply Hbad; [intros n; reflexivity|].
    exists "hash:pw". split; reflexivity.
  - intros s.
    destruct (createSession_refusals compare_1 sign_1 s
                (LoginBody.mk "o@example.org" "pw")) as (_ & Hfault & _).
    apply Hfault. by eexists.
  - intros s.
    destruct (createSession_refusals compare_1 sign_1 s
                (LoginBody.mk "o@example.org" "pw")) as (_ & _ & Hsecond).
    apply (Hsecond (9, User.mk (Some "O") "o@example.org") "hash:pw");
      try reflexivity.
    left. by eexists.
Defined.

Lemma sign_up_then_log_in_witness :
  let s := site_1 (calm db_3 5000) in
  let s1 := (answer (signUpCandidate "pending" "x@example.org") s).2 in
  let s2 := (answer (signUp hash_1
                       (SignUpBody.mk (Some "X") "x@example.org" "pw-3"
                                      "secret")) s1).2 in
  let s3 := answer (createSession compare_1 sign_1
                      (LoginBody.mk "x@example.org" "pw-3")) s2 in
  users (db (world s2)) !! 31 = Some (User.mk (Some "X") "x@example.org")
  ∧ ∃ cookies,
      s3.1 = Some (mkReply cookies 200 (BSession (32, Session.mk 31 true)))
      ∧ sessions (db (world s3.2)) !! 32 = Some (Session.mk 31 true).
Proof.
  intros s.
  apply (sign_up_then_log_in hash_1 compare_1 sign_1 "pending" s (Some "X")
           "x@example.org" "pw-3").
  - reflexivity.
  - intros p. unfold compare_1, hash_1. by apply bool_decide_eq_true_2.
  - intros n. reflexivity.
  - reflexivity.
  - reflexivity.
  - reflexivity.
  - reflexivity.
  - reflexivity.
Defined.
